(** * dronereg: the FAA releasable-aircraft reader and the drone join

    A shallow embedding of [dronereg.py].  Python [str] values are modelled
    as [string] (sequences of ASCII characters); [int] as [Z]; the two
    class-level dictionaries and the model lookup as [gmap string _];
    exceptions as an error monad; the generator [read_file] as a finite
    stream that ends by returning or by raising.

    Library calls are modelled by what CPython does on the values this
    program hands them: [str.strip], [str.lower], [re.sub] with the two
    single-character alternations, [collections.namedtuple] with its
    field-name validation, [time.strptime] / [time.strftime] with the
    formats ['%Y%m%d'] and ['%Y-%m-%d'].  A member of the archive is
    modelled by the sequence of rows [csv.reader] produces for it. *)

From Stdlib Require Import ZArith NArith Ascii.
From stdpp Require Import base option list gmap strings pretty.

Local Open Scope Z_scope.

(** ** Exceptions and the error monad *)

Inductive exn : Type :=
  | ValueError      (* strptime, datetime.date, namedtuple *)
  | AttributeError  (* a record without the attribute that is read *)
  | KeyError        (* ZipFile.open on a member that is not there *)
  | RuntimeError.   (* StopIteration leaving a generator body (PEP 479) *)

Inductive result (A : Type) : Type :=
  | Ok (a : A)
  | Raise (e : exn).
Arguments Ok {A} a.
Arguments Raise {A} e.

#[global] Instance result_ret : MRet result := fun A a => Ok a.
#[global] Instance result_bind : MBind result := fun A B f m =>
  match m with
  | Ok a => f a
  | Raise e => Raise e
  end.

#[global] Instance exn_eq_dec : EqDecision exn.
Proof. solve_decision. Defined.

(** ** Characters and strings *)

Module Str.

Definition code (c : ascii) : N := N_of_ascii c.

(** [str.isspace] on the ASCII range: TAB, LF, VT, FF, CR, FS, GS, RS, US
    and the space. *)
Definition is_space (c : ascii) : bool :=
  let n := code c in
  ((9 <=? n) && (n <=? 13) || (28 <=? n) && (n <=? 32))%N.

Definition is_upper (c : ascii) : bool :=
  let n := code c in ((65 <=? n) && (n <=? 90))%N.

Definition is_lower (c : ascii) : bool :=
  let n := code c in ((97 <=? n) && (n <=? 122))%N.

Definition is_digit (c : ascii) : bool :=
  let n := code c in ((48 <=? n) && (n <=? 57))%N.

Definition lower_char (c : ascii) : ascii :=
  if is_upper c then ascii_of_N (code c + 32) else c.

Fixpoint map (f : ascii -> ascii) (s : string) : string :=
  match s with
  | EmptyString => EmptyString
  | String c r => String (f c) (map f r)
  end.

Fixpoint filter (p : ascii -> bool) (s : string) : string :=
  match s with
  | EmptyString => EmptyString
  | String c r => if p c then String c (filter p r) else filter p r
  end.

Fixpoint forallb (p : ascii -> bool) (s : string) : bool :=
  match s with
  | EmptyString => true
  | String c r => p c && forallb p r
  end.

Definition lower (s : string) : string := map lower_char s.

Fixpoint lstrip (s : string) : string :=
  match s with
  | EmptyString => EmptyString
  | String c r => if is_space c then lstrip r else s
  end.

Fixpoint rstrip (s : string) : string :=
  match s with
  | EmptyString => EmptyString
  | String c r =>
      match rstrip r with
      | EmptyString => if is_space c then EmptyString else String c EmptyString
      | t => String c t
      end
  end.

(** [s.strip()] *)
Definition strip (s : string) : string := rstrip (lstrip s).

(** [len(s)] *)
Definition len (s : string) : nat := String.length s.

(** [s[:n]] and [s[n:]] for [0 <= n] *)
Fixpoint take (n : nat) (s : string) : string :=
  match n, s with
  | S k, String c r => String c (take k r)
  | _, _ => EmptyString
  end.

Fixpoint drop (n : nat) (s : string) : string :=
  match n, s with
  | S k, String _ r => drop k r
  | _, _ => s
  end.

Definition startswith (c : ascii) (s : string) : bool :=
  match s with
  | String d _ => bool_decide (c = d)
  | EmptyString => false
  end.

End Str.

(** ** ReleasableAircraft._tidy_header *)

Definition is_paren (c : ascii) : bool :=
  bool_decide (c = "("%char) || bool_decide (c = ")"%char).

Definition is_dash_or_space (c : ascii) : bool :=
  bool_decide (c = "-"%char) || bool_decide (c = " "%char).

(** [re.sub(r'\(|\)', '', text)] *)
Definition sub_parens (text : string) : string :=
  Str.filter (fun c => negb (is_paren c)) text.

(** [re.sub(r'-| ', '_', text)] *)
Definition sub_dash_space (text : string) : string :=
  Str.map (fun c => if is_dash_or_space c then "_"%char else c) text.

Definition _tidy_header (text : string) : string :=
  let text := Str.lower (Str.strip text) in
  let text := sub_parens text in
  let text := sub_dash_space text in
  text.


(** ** collections.namedtuple

    [namedtuple('row', header)] checks the type name and every field name
    ([str.isidentifier], [keyword.iskeyword]), then walks the field names
    with a set of the names seen so far; every failure is a [ValueError].
    The class it returns is modelled by its field list, an instance by the
    field list with the values. *)

Definition kwlist : list string :=
  [ "False"; "None"; "True"; "and"; "as"; "assert"; "async"; "await";
    "break"; "class"; "continue"; "def"; "del"; "elif"; "else"; "except";
    "finally"; "for"; "from"; "global"; "if"; "import"; "in"; "is";
    "lambda"; "nonlocal"; "not"; "or"; "pass"; "raise"; "return"; "try";
    "while"; "with"; "yield" ].

Definition iskeyword (name : string) : bool := bool_decide (name ∈ kwlist).

Definition is_id_start (c : ascii) : bool :=
  Str.is_upper c || Str.is_lower c || bool_decide (c = "_"%char).

Definition is_id_continue (c : ascii) : bool :=
  is_id_start c || Str.is_digit c.

Definition isidentifier (name : string) : bool :=
  match name with
  | EmptyString => false
  | String c r => is_id_start c && Str.forallb is_id_continue r
  end.

Fixpoint check_field_names (seen : gset string) (field_names : list string)
  : result unit :=
  match field_names with
  | [] => Ok ()
  | name :: rest =>
      if Str.startswith "_" name then Raise ValueError
      else if bool_decide (name ∈ seen) then Raise ValueError
      else check_field_names ({[ name ]} ∪ seen) rest
  end.

Definition namedtuple (typename : string) (field_names : list string)
  : result (list string) :=
  if forallb (fun name => isidentifier name && negb (iskeyword name))
             (typename :: field_names)
  then _ ← check_field_names ∅ field_names; Ok field_names
  else Raise ValueError.

Record row : Type := Row { _fields : list string; values : list string }.

#[global] Instance row_eq_dec : EqDecision row.
Proof. solve_decision. Defined.

Fixpoint field_value (names vals : list string) (name : string) : option string :=
  match names, vals with
  | n :: names', v :: vals' =>
      if bool_decide (n = name) then Some v else field_value names' vals' name
  | _, _ => None
  end.

(** [r.name] for a name that the tuple class does not define by itself:
    any [name] other than [count] and [index] that does not start with an
    underscore.  Every attribute that [parse_drone_data] reads is of this
    kind.  On such a name the lookup goes through the fields of the record
    and fails with [AttributeError] when none matches. *)
Definition getattr (r : row) (name : string) : result string :=
  match field_value (_fields r) (values r) name with
  | Some v => Ok v
  | None => Raise AttributeError
  end.

(** [if r:] on a named tuple: a tuple is true when it is not empty. *)
Definition truthy (r : row) : bool :=
  match values r with
  | [] => false
  | _ :: _ => true
  end.

(** ** Generators *)

Inductive generator (A : Type) : Type :=
  | Yield (a : A) (rest : generator A)
  | Return
  | Throw (e : exn).
Arguments Yield {A} a rest.
Arguments Return {A}.
Arguments Throw {A} e.

Fixpoint yielded {A} (g : generator A) : list A :=
  match g with
  | Yield a rest => a :: yielded rest
  | Return | Throw _ => []
  end.

Fixpoint thrown {A} (g : generator A) : option exn :=
  match g with
  | Yield _ rest => thrown rest
  | Return => None
  | Throw e => Some e
  end.

(** ** ReleasableAircraft.read_file

    The archive maps a member name to the rows [csv.reader] reads from it
    (an empty member has no row at all).  [next(reader)] on an exhausted
    reader raises [StopIteration] inside the generator body, which reaches
    the consumer as [RuntimeError].  The rows are taken as read: what the
    archive, the decoder or the CSV reader may raise while a member is
    being read (a damaged member, bytes that are not UTF-8, a malformed
    row) is outside this model. *)

Fixpoint read_rows (header : list string) (reader : list (list string))
  : generator row :=
  match reader with
  | [] => Return
  | r :: reader' =>
      let dat := map Str.strip (removelast r) in
      if bool_decide (length dat = length header)
      then Yield (Row header dat) (read_rows header reader')
      else read_rows header reader'
  end.

Definition read_file (database : gmap string (list (list string)))
    (file : string) : generator row :=
  match database !! file with
  | None => Throw KeyError
  | Some [] => Throw RuntimeError
  | Some (first :: reader) =>
      let header := map _tidy_header (removelast first) in
      match namedtuple "row" header with
      | Raise e => Throw e
      | Ok fields => read_rows fields reader
      end
  end.

(** ** The translation tables

    A dictionary display inserts its items from left to right, a later item
    replacing an earlier one with the same key. *)

Definition dict_display {V} (items : list (string * V)) : gmap string V :=
  foldl (fun d kv => <[ kv.1 := kv.2 ]> d) ∅ items.

(** [d.get(key, default)] *)
Definition dict_get {V} (d : gmap string V) (key : string) (dflt : V) : V :=
  default dflt (d !! key).

Definition REGISTRANT_TYPES_items : list (string * string) :=
  [ ("1", "Individual");
    ("2", "Partnership");
    ("3", "Corporation");
    ("4", "Co-Owned");
    ("5", "Government");
    ("7", "LLC");
    ("8", "Non Citizen Corporation");
    ("9", "Non Citizen Co-Owned") ].

Definition REGISTRANT_TYPES : gmap string string :=
  dict_display REGISTRANT_TYPES_items.

Definition STATUS_CODES_items : list (string * string) :=
  [ ("1", "Triennial Aircraft Registration form was returned by the Post Office as undeliverable");
    ("2", "N-Number Assigned but has not yet been registered");
    ("3", "N-Number assigned as a Non Type Certificated aircraft - but has not yet been registered");
    ("4", "N-Number assigned as import - but has not yet been registered");
    ("5", "Reserved N-Number");
    ("6", "Administratively canceled");
    ("7", "Sale reported");
    ("8", "A second attempt has been made at mailing a Triennial Aircraft Registration form to the owner with no response");
    ("9", "Certificate of Registration has been revoked");
    ("10", "N-Number assigned but has not been registered and is pending cancellation");
    ("11", "N-Number assigned as a Non Type Certificated (Amateur) but has not been registered that is pending cancellation");
    ("12", "N-Number assigned as import but has not been registered that is pending cancellation");
    ("13", "Registration Expired");
    ("14", "First Notice for ReRegistration/Renewal");
    ("15", "Second Notice for ReRegistration/Renewal");
    ("16", "Registration Expired - Pending Cancellation");
    ("17", "Sale Reported - Pending Cancellation");
    ("18", "Sale Reported - Canceled");
    ("19", "Registration Pending - Pending Cancellation");
    ("20", "Registration Pending - Canceled");
    ("21", "Revoked - Pending Cancellation");
    ("22", "Revoked - Canceled");
    ("23", "Expired Dealer (Pending Cancellation)");
    ("24", "Third Notice for ReRegistration/Renewal");
    ("25", "First Notice for Registration Renewal");
    ("26", "Second Notice for Registration Renewal");
    ("27", "Registration Expired");
    ("28", "Third Notice for Registration Renewal");
    ("29", "Registration Expired - Pending Cancellation");
    ("A", "The Triennial Aircraft Registration form was mailed and has not been returned by the Post Office");
    ("D", "Expired Dealer");
    ("E", "The Certificate of Aircraft Registration was revoked by enforcement action");
    ("M", "Aircraft registered to the manufacturer under their Dealer Certificate");
    ("N", "Non-citizen Corporations which have not returned their flight hour reports");
    ("R", "Registration pending");
    ("S", "Second Triennial Aircraft Registration Form has been mailed and has not been returned by the Post Office ");
    ("T", "Valid - from Trainee");
    ("V", "Valid");
    ("X", "Enforcement Letter");
    ("Z", "Permanent Reserved");
    ("", "Invalid") ].

Definition STATUS_CODES : gmap string string :=
  dict_display STATUS_CODES_items.

(** ** time.strptime(dt, '%Y%m%d') and time.strftime('%Y-%m-%d', tm)

    [_strptime] compiles the format to the regular expression
    [(?P<Y>\d\d\d\d)(?P<m>1[0-2]|0[1-9]|[1-9])(?P<d>3[0-1]|[1-2]\d|0[1-9]|[1-9]| [1-9])]
    and matches it at the start of the data string.  A pattern is modelled by
    the list of ways it matches a prefix (matched text, remaining text), in
    the order in which the backtracking matcher tries them; the match found
    is the first way the whole sequence succeeds. *)

Module Strptime.

Definition just (c : ascii) (x : ascii) : bool := bool_decide (x = c).

Definition between (lo hi : ascii) (x : ascii) : bool :=
  ((Str.code lo <=? Str.code x) && (Str.code x <=? Str.code hi))%N.

Definition one (p : ascii -> bool) (s : string) : list (string * string) :=
  match s with
  | String a r => if p a then [ (String a EmptyString, r) ] else []
  | _ => []
  end.

Definition two (p q : ascii -> bool) (s : string) : list (string * string) :=
  match s with
  | String a (String b r) =>
      if p a && q b then [ (String a (String b EmptyString), r) ] else []
  | _ => []
  end.

Definition re_Y (s : string) : list (string * string) :=
  match s with
  | String a (String b (String c (String d r))) =>
      if Str.is_digit a && Str.is_digit b && Str.is_digit c && Str.is_digit d
      then [ (String a (String b (String c (String d EmptyString))), r) ]
      else []
  | _ => []
  end.

Definition re_m (s : string) : list (string * string) :=
  two (just "1") (between "0" "2") s
  ++ two (just "0") (between "1" "9") s
  ++ one (between "1" "9") s.

Definition re_d (s : string) : list (string * string) :=
  two (just "3") (between "0" "1") s
  ++ two (between "1" "2") Str.is_digit s
  ++ two (just "0") (between "1" "9") s
  ++ one (between "1" "9") s
  ++ two (just " ") (between "1" "9") s.

(** [format_regex.match(data_string)]: the groups and the text after
    [found.end()] *)
Definition format_regex_match (data_string : string)
  : option (string * string * string * string) :=
  head ('(Y, s1) ← re_Y data_string;
        '(m, s2) ← re_m s1;
        '(d, s3) ← re_d s2;
        [ (Y, m, d, s3) ]).

Fixpoint int_digits (acc : Z) (s : string) : result Z :=
  match s with
  | EmptyString => Ok acc
  | String c r =>
      if Str.is_digit c
      then int_digits (10 * acc + Z.of_N (Str.code c - 48)) r
      else Raise ValueError
  end.

(** [int(s)] on unsigned decimal text, surrounding whitespace allowed *)
Definition int (s : string) : result Z :=
  match Str.strip s with
  | EmptyString => Raise ValueError
  | t => int_digits 0 t
  end.

Definition _is_leap (year : Z) : bool :=
  (year mod 4 =? 0) && (negb (year mod 100 =? 0) || (year mod 400 =? 0)).

Definition _DAYS_IN_MONTH : list Z :=
  [ -1; 31; 28; 31; 30; 31; 30; 31; 31; 30; 31; 30; 31 ].

Definition _days_in_month (year month : Z) : Z :=
  if (month =? 2) && _is_leap year then 29
  else nth (Z.to_nat month) _DAYS_IN_MONTH (-1).

(** [datetime_date(year, month, day)]: the range checks of the constructor *)
Definition datetime_date (year month day : Z) : result (Z * Z * Z) :=
  if (1 <=? year) && (year <=? 9999)
     && (1 <=? month) && (month <=? 12)
     && (1 <=? day) && (day <=? _days_in_month year month)
  then Ok (year, month, day)
  else Raise ValueError.

(** The fields of [struct_time] that the output format reads. *)
Record struct_time : Type :=
  { tm_year : Z; tm_mon : Z; tm_mday : Z }.

Definition strptime (data_string : string) : result struct_time :=
  match format_regex_match data_string with
  | None => Raise ValueError
  | Some (Y, m, d, rest) =>
      if negb (bool_decide (rest = EmptyString)) then Raise ValueError
      else
        year ← int Y;
        month ← int m;
        day ← int d;
        _ ← datetime_date year month day;
        Ok {| tm_year := year; tm_mon := month; tm_mday := day |}
  end.

(** [%m] and [%d]: two digits, zero padded *)
Definition two_digits (n : Z) : string :=
  if n <? 10 then "0" +:+ pretty n else pretty n.

(** [%Y] is the year in decimal as the C library prints it (no padding). *)
Definition strftime (tm : struct_time) : string :=
  pretty (tm_year tm) +:+ "-" +:+ two_digits (tm_mon tm)
    +:+ "-" +:+ two_digits (tm_mday tm).

End Strptime.

(** ** ReleasableAircraft.format_date and format_zip *)

(** [if dt] / [zip and ...]: [None] and the empty string are false. *)
Definition nonempty (s : option string) : bool :=
  match s with
  | Some (String _ _) => true
  | _ => false
  end.

Definition format_date (dt : option string) : result string :=
  match dt with
  | Some s =>
      if nonempty dt
      then tm ← Strptime.strptime s; Ok (Strptime.strftime tm)
      else Ok ""
  | None => Ok ""
  end.

Definition format_zip (zip : option string) : option string :=
  match zip with
  | Some z =>
      if nonempty zip && bool_decide (Str.len z = 9%nat)
      then Some (Str.take 5 z +:+ "-" +:+ Str.drop 5 z)
      else zip
  | None => zip
  end.

(** ** The drone predicate *)

Definition DRONE_AIRCRAFT_TYPE : string := "6".
Definition DRONE_ENGINE_TYPE : string := "10".

Definition DRONE_DATA_HEADERS : list string :=
  [ "n_number"; "serial_number"; "mode_s_code"; "mode_s_code_hex";
    "mfr_mdl_code"; "mfr"; "model"; "no_eng"; "ac_weight";
    "type_registrant"; "city"; "state"; "zip_code"; "status";
    "cert_issue_date"; "airworthiness_date"; "last_action_date";
    "cancel_date" ].

Definition is_drone (acft_type eng_type : string) : bool :=
  bool_decide (acft_type = DRONE_AIRCRAFT_TYPE)
  && bool_decide (eng_type = DRONE_ENGINE_TYPE).

(** ** parse_drone_data *)

(** [csv.writer] writes [None] as the empty field. *)
Definition csv_field (v : option string) : string := default "" v.

(** The dictionary comprehension over [ACFTREF.txt]: the condition is
    evaluated first, the key only for an entry that passes. *)
Fixpoint build_mfr_mdls (g : generator row) (mfr_mdls : gmap string row)
  : result (gmap string row) :=
  match g with
  | Return => Ok mfr_mdls
  | Throw e => Raise e
  | Yield mm rest =>
      type_acft ← getattr mm "type_acft";
      type_eng ← getattr mm "type_eng";
      if is_drone type_acft type_eng
      then code ← getattr mm "code";
           build_mfr_mdls rest (<[ code := mm ]> mfr_mdls)
      else build_mfr_mdls rest mfr_mdls
  end.

(** The list handed to [writer.writerow] in the [MASTER.txt] loop, its
    elements evaluated from left to right. *)
Definition master_cells (mfr_mdl ac : row) : result (list string) :=
  n_number ← getattr ac "n_number";
  serial_number ← getattr ac "serial_number";
  mode_s_code ← getattr ac "mode_s_code";
  mode_s_code_hex ← getattr ac "mode_s_code_hex";
  mfr_mdl_code ← getattr ac "mfr_mdl_code";
  mfr ← getattr mfr_mdl "mfr";
  model ← getattr mfr_mdl "model";
  no_eng ← getattr mfr_mdl "no_eng";
  ac_weight ← getattr mfr_mdl "ac_weight";
  type_registrant ← getattr ac "type_registrant";
  city ← getattr ac "city";
  state ← getattr ac "state";
  zip_code ← getattr ac "zip_code";
  status_code ← getattr ac "status_code";
  cert_issue_date ← getattr ac "cert_issue_date";
  cert_issue ← format_date (Some cert_issue_date);
  air_worth_date ← getattr ac "air_worth_date";
  air_worth ← format_date (Some air_worth_date);
  last_action_date ← getattr ac "last_action_date";
  last_action ← format_date (Some last_action_date);
  Ok [ n_number; serial_number; mode_s_code; mode_s_code_hex;
       mfr_mdl_code; mfr; model; no_eng; ac_weight;
       dict_get REGISTRANT_TYPES type_registrant "";
       city; state;
       csv_field (format_zip (Some zip_code));
       dict_get STATUS_CODES status_code "";
       cert_issue; air_worth; last_action;
       "" ].

(** The body of the [MASTER.txt] loop: [None] when the record is passed
    over, the row written otherwise. *)
Definition master_row (mfr_mdls : gmap string row) (ac : row)
  : result (option (list string)) :=
  type_aircraft ← getattr ac "type_aircraft";
  type_engine ← getattr ac "type_engine";
  if negb (is_drone type_aircraft type_engine) then Ok None
  else
    key ← getattr ac "mfr_mdl_code";
    match mfr_mdls !! key with
    | Some mfr_mdl =>
        if truthy mfr_mdl
        then cells ← master_cells mfr_mdl ac; Ok (Some cells)
        else Ok None
    | None => Ok None
    end.

(** The list handed to [writer.writerow] in the [DEREG.txt] loop. *)
Definition dereg_cells (mfr_mdl ac : row) : result (list string) :=
  n_number ← getattr ac "n_number";
  serial_number ← getattr ac "serial_number";
  mode_s_code ← getattr ac "mode_s_code";
  mode_s_code_hex ← getattr ac "mode_s_code_hex";
  mfr_mdl_code ← getattr ac "mfr_mdl_code";
  mfr ← getattr mfr_mdl "mfr";
  model ← getattr mfr_mdl "model";
  no_eng ← getattr mfr_mdl "no_eng";
  ac_weight ← getattr mfr_mdl "ac_weight";
  indicator_group ← getattr ac "indicator_group";
  city_mail ← getattr ac "city_mail";
  state_abbrev_mail ← getattr ac "state_abbrev_mail";
  zip_code_mail ← getattr ac "zip_code_mail";
  status_code ← getattr ac "status_code";
  cert_issue_date ← getattr ac "cert_issue_date";
  cert_issue ← format_date (Some cert_issue_date);
  air_worth_date ← getattr ac "air_worth_date";
  air_worth ← format_date (Some air_worth_date);
  last_act_date ← getattr ac "last_act_date";
  last_act ← format_date (Some last_act_date);
  cancel_date ← getattr ac "cancel_date";
  cancel ← format_date (Some cancel_date);
  Ok [ n_number; serial_number; mode_s_code; mode_s_code_hex;
       mfr_mdl_code; mfr; model; no_eng; ac_weight;
       dict_get REGISTRANT_TYPES indicator_group "";
       city_mail; state_abbrev_mail;
       csv_field (format_zip (Some zip_code_mail));
       dict_get STATUS_CODES status_code "";
       cert_issue; air_worth; last_act;
       cancel ].

(** The body of the [DEREG.txt] loop. *)
Definition dereg_row (mfr_mdls : gmap string row) (ac : row)
  : result (option (list string)) :=
  key ← getattr ac "mfr_mdl_code";
  match mfr_mdls !! key with
  | Some mfr_mdl =>
      if truthy mfr_mdl
      then cells ← dereg_cells mfr_mdl ac; Ok (Some cells)
      else Ok None
  | None => Ok None
  end.

(** What a run leaves behind: the rows written to the output file, and the
    exception that ended the run, if any. *)
Record outcome : Type :=
  Outcome { written : list (list string); raised : option exn }.

(** A [for] loop over a generator whose body writes at most one row. *)
Fixpoint write_rows (body : row -> result (option (list string)))
    (g : generator row) (f : list (list string)) : outcome :=
  match g with
  | Return => Outcome f None
  | Throw e => Outcome f (Some e)
  | Yield ac rest =>
      match body ac with
      | Raise e => Outcome f (Some e)
      | Ok None => write_rows body rest f
      | Ok (Some cells) => write_rows body rest (f ++ [cells])
      end
  end.

Definition parse_drone_data (database : gmap string (list (list string)))
  : outcome :=
  match build_mfr_mdls (read_file database "ACFTREF.txt") ∅ with
  | Raise e => Outcome [] (Some e)
  | Ok mfr_mdls =>
      let f := [ DRONE_DATA_HEADERS ] in
      match write_rows (master_row mfr_mdls) (read_file database "MASTER.txt") f with
      | Outcome f (Some e) => Outcome f (Some e)
      | Outcome f None =>
          write_rows (dereg_row mfr_mdls) (read_file database "DEREG.txt") f
      end
  end.


(** ** The specification's wording of the header normaliser

    Lower-case, strip, remove the parentheses, replace spaces and hyphens:
    the four steps in the order in which the specification lists them. *)

Definition tidyHeaderToken (raw : string) : string :=
  let lowered := Str.lower raw in
  let stripped := Str.strip lowered in
  let bare := Str.filter (fun c => negb (is_paren c)) stripped in
  Str.map (fun c => if is_dash_or_space c then "_"%char else c) bare.

(** A character that may occur in a tidied header token. *)
Definition tidy_output_char (c : ascii) : bool :=
  negb (is_paren c) && negb (is_dash_or_space c) && negb (Str.is_upper c).

(** ** Records with a known layout

    [hasattr r name], and the value of a field that is there. *)

Definition hasattr (r : row) (name : string) : bool :=
  match field_value (_fields r) (values r) name with
  | Some _ => true
  | None => false
  end.

Definition has_attrs (names : list string) (r : row) : Prop :=
  forallb (hasattr r) names = true.

Definition field (r : row) (name : string) : string :=
  default "" (field_value (_fields r) (values r) name).

(** The labels of the registrant types as the specification spells them. *)
Definition registrant_labels_of_the_spec : list string :=
  [ "Individual"; "Partnership"; "Corporation"; "Co-Owned"; "Government";
    "LLC"; "Non-Citizen Corporation"; "Non-Citizen Co-Owned" ].

(** ** Sample archives *)

Definition ACFTREF_sample : list (list string) :=
  [ [ "CODE"; "MFR"; "MODEL"; "TYPE-ACFT"; "TYPE-ENG"; "AC-CAT";
      "BUILD-CERT-IND"; "NO-ENG"; "NO-SEATS"; "AC-WEIGHT"; "SPEED";
      "TC-DATA-SHEET"; "TC-DATA-HOLDER"; "" ];
    [ "A1"; "Acme   "; "Falcon  "; "6"; "10"; "1"; "0"; "1"; "0"; "CLASS 1";
      "0"; ""; ""; "" ];
    [ "B2"; "Boeing "; "747     "; "5"; "5 "; "1"; "0"; "4"; "0"; "CLASS 4";
      "0"; ""; ""; "" ];
    [ "A1"; "Acme   "; "Falcon 2"; "6"; "10"; "1"; "0"; "4"; "0"; "CLASS 1";
      "0"; ""; ""; "" ];
    [ "short"; "row"; "" ] ].

Definition MASTER_sample (cert_issue_date : string) : list (list string) :=
  [ [ "N-NUMBER"; "SERIAL NUMBER"; "MFR MDL CODE"; "TYPE REGISTRANT"; "CITY";
      "STATE"; "ZIP CODE"; "LAST ACTION DATE"; "CERT ISSUE DATE";
      "TYPE AIRCRAFT"; "TYPE ENGINE"; "STATUS CODE"; "MODE S CODE";
      "AIR WORTH DATE"; "OTHER NAMES(1)"; "MODE S CODE HEX"; "" ];
    [ "N100DR"; "S1"; "A1"; "1"; "RENO"; "NV"; "895011234"; "20230115";
      cert_issue_date; "6"; "10"; "V"; "50000001"; ""; ""; "A00001"; "" ];
    [ "N200"; "S2"; "B2"; "3"; "RENO"; "NV"; "89501"; "20230115"; "20220101";
      "5"; "5"; "V"; "50000002"; ""; ""; "A00002"; "" ];
    [ "N300"; "S3"; "A1"; "3"; "RENO"; "NV"; "89501"; "20230115"; "20220101";
      "4"; "5"; "V"; "50000003"; ""; ""; "A00003"; "" ];
    [ "N400"; "S4"; "Z9"; "3"; "RENO"; "NV"; "89501"; "20230115"; "20220101";
      "6"; "10"; "V"; "50000004"; ""; ""; "A00004"; "" ] ].

Definition DEREG_sample (cancel_date : string) : list (list string) :=
  [ [ "N-NUMBER"; "SERIAL-NUMBER"; "MFR-MDL-CODE"; "STATUS-CODE"; "CITY-MAIL";
      "STATE-ABBREV-MAIL"; "ZIP-CODE-MAIL"; "AIR-WORTH-DATE"; "CANCEL-DATE";
      "MODE-S-CODE"; "INDICATOR-GROUP"; "LAST-ACT-DATE"; "CERT-ISSUE-DATE";
      "MODE-S-CODE-HEX"; "" ];
    [ "N500"; "S5"; "A1"; "V"; "RENO"; "NV"; "89501"; ""; cancel_date;
      "50000005"; "8"; "20211231"; "20200101"; "A00005"; "" ];
    [ "N600"; "S6"; "B2"; "V"; "RENO"; "NV"; "89501"; ""; "20220101";
      "50000006"; "1"; "20211231"; "20200101"; "A00006"; "" ] ].

Definition archive (acftref master dereg : list (list string))
  : gmap string (list (list string)) :=
  <[ "ACFTREF.txt" := acftref ]>
    (<[ "MASTER.txt" := master ]> (<[ "DEREG.txt" := dereg ]> ∅)).

Definition sample_db : gmap string (list (list string)) :=
  archive ACFTREF_sample (MASTER_sample "20220101") (DEREG_sample "20220101").

(** The active table is an empty member. *)
Definition empty_master_db : gmap string (list (list string)) :=
  archive ACFTREF_sample [] (DEREG_sample "20220101").



(** The lookup built from an archive, and the [n]-th record of a member. *)
Definition mfr_mdls_of (database : gmap string (list (list string)))
  : gmap string row :=
  match build_mfr_mdls (read_file database "ACFTREF.txt") ∅ with
  | Ok mfr_mdls => mfr_mdls
  | Raise _ => ∅
  end.

Definition record (database : gmap string (list (list string)))
    (file : string) (n : nat) : row :=
  nth n (yielded (read_file database file)) (Row [] []).

(** ** The columns the join reads *)

Definition ACFTREF_columns : list string :=
  [ "code"; "type_acft"; "type_eng"; "mfr"; "model"; "no_eng"; "ac_weight" ].

Definition MASTER_columns : list string :=
  [ "type_aircraft"; "type_engine"; "mfr_mdl_code"; "n_number";
    "serial_number"; "mode_s_code"; "mode_s_code_hex"; "type_registrant";
    "city"; "state"; "zip_code"; "status_code"; "cert_issue_date";
    "air_worth_date"; "last_action_date" ].

Definition DEREG_columns : list string :=
  [ "mfr_mdl_code"; "n_number"; "serial_number"; "mode_s_code";
    "mode_s_code_hex"; "indicator_group"; "city_mail"; "state_abbrev_mail";
    "zip_code_mail"; "status_code"; "cert_issue_date"; "air_worth_date";
    "last_act_date"; "cancel_date" ].

#[global] Instance has_attrs_dec names r : Decision (has_attrs names r).
Proof. unfold has_attrs. apply _. Defined.






(** ** Dates as the specification reads them

    An eight-digit text read with fixed widths: four digits of year, two of
    month, two of day, and the calendar that decides whether they name a
    day. *)

Fixpoint num_from (acc : Z) (s : string) : Z :=
  match s with
  | EmptyString => acc
  | String c r => num_from (10 * acc + Z.of_N (Str.code c - 48)) r
  end.

(** The number a string of digits denotes. *)
Definition num (s : string) : Z := num_from 0 s.

Definition is_yyyymmdd (s : string) : bool :=
  bool_decide (Str.len s = 8%nat) && Str.forallb Str.is_digit s.

Definition year_text (s : string) : string := Str.take 4 s.
Definition month_text (s : string) : string := Str.take 2 (Str.drop 4 s).
Definition day_text (s : string) : string := Str.drop 6 s.

Definition leap_year (y : Z) : bool :=
  (y mod 4 =? 0) && negb (y mod 100 =? 0) || (y mod 400 =? 0).

Definition days_in_month (y m : Z) : Z :=
  if bool_decide (m ∈ [1; 3; 5; 7; 8; 10; 12]) then 31
  else if bool_decide (m ∈ [4; 6; 9; 11]) then 30
  else if bool_decide (m = 2) then (if leap_year y then 29 else 28)
  else 0.

Definition calendar_date (y m d : Z) : bool :=
  bool_decide (1 <= y <= 9999) && bool_decide (1 <= m <= 12)
  && bool_decide (1 <= d <= days_in_month y m).

Definition well_formed_date (s : string) : Prop :=
  is_yyyymmdd s = true
  /\ calendar_date (num (year_text s)) (num (month_text s)) (num (day_text s)) = true.

(** C1 as the specification states its last part. *)
Definition every_malformed_date_raises : Prop :=
  forall s, s <> "" -> ~ well_formed_date s -> format_date (Some s) = Raise ValueError.

(** ** The month and day patterns on two digits each *)

Definition digit_chars : list ascii :=
  [ "0"; "1"; "2"; "3"; "4"; "5"; "6"; "7"; "8"; "9" ]%char.

Definition month_day_match (s : string) : option (string * string * string) :=
  head ('(m, s2) ← Strptime.re_m s;
        '(d, s3) ← Strptime.re_d s2;
        [ (m, d, s3) ]).

#[global] Instance result_eq_dec {A} `{EqDecision A} : EqDecision (result A).
Proof. solve_decision. Defined.

Definition month_day_check (m1 m2 d1 d2 : ascii) : bool :=
  let m := String m1 (String m2 EmptyString) in
  let d := String d1 (String d2 EmptyString) in
  let found := month_day_match (String m1 (String m2 d)) in
  if bool_decide (1 <= num m <= 12) && bool_decide (1 <= num d <= 31)
  then bool_decide (found = Some (m, d, EmptyString))
       && bool_decide (Strptime.two_digits (num m) = m)
       && bool_decide (Strptime.two_digits (num d) = d)
  else match found with
       | Some (_, _, rest) => negb (bool_decide (rest = EmptyString))
       | None => true
       end.

Definition year_check (a b c d : ascii) : bool :=
  let Y := String a (String b (String c (String d EmptyString))) in
  bool_decide (a = "0"%char) || bool_decide (pretty (num Y) = Y).

Definition for_all_digits (p : ascii -> bool) : bool := forallb p digit_chars.

(** ** Headers that [namedtuple] accepts *)

Definition valid_field_name (name : string) : bool :=
  isidentifier name && negb (iskeyword name) && negb (Str.startswith "_" name).

Definition valid_header (names : list string) : Prop :=
  Forall (fun name => valid_field_name name = true) names /\ NoDup names.

#[global] Instance valid_header_dec names : Decision (valid_header names).
Proof. unfold valid_header. apply _. Defined.

(** ** The row a loop body writes, if it writes one *)

Definition row_of (body : row -> result (option (list string))) (ac : row)
  : option (list string) :=
  match body ac with
  | Ok (Some cells) => Some cells
  | _ => None
  end.

(** The three members the report is made from. *)
Definition members : list string := [ "ACFTREF.txt"; "MASTER.txt"; "DEREG.txt" ].

(** A header with two tokens that tidy to the same field name. *)
Definition colliding_header_db : gmap string (list (list string)) :=
  {[ "MASTER.txt" := [ [ "N-NUMBER"; "ZIP CODE"; "ZIP-CODE"; "" ];
                       [ "N1"; "89501"; "89501"; "" ] ] ]}.

(** A deregistered record with two more columns than the join reads. *)
Definition with_type_columns (ac : row) (type_aircraft type_engine : string) : row :=
  Row (_fields ac ++ [ "type_aircraft"; "type_engine" ])
      (values ac ++ [ type_aircraft; type_engine ]).

(** ** The years [datetime.date] accepts, as text *)

Definition short_year (y : Z) : bool :=
  bool_decide (Str.len (pretty y) <= 4)%nat.

Definition years : list Z := seqZ 1 9999.

(** ** The characters of the headers of the database *)

Definition is_letter (c : ascii) : bool := Str.is_upper c || Str.is_lower c.

Definition header_char (c : ascii) : bool :=
  is_letter c || Str.is_digit c || bool_decide (c = "_"%char)
  || is_dash_or_space c || is_paren c.

Definition tidied_char_ok (c : ascii) : bool :=
  let c' := Str.lower_char c in
  is_paren c'
  || is_id_continue (if is_dash_or_space c' then "_"%char else c').

(** ** Entries the comprehension can read *)

(** The type columns are there, and the code column when the entry is a
    drone. *)
Definition entry_readable (mm : row) : bool :=
  hasattr mm "type_acft" && hasattr mm "type_eng"
  && (negb (is_drone (field mm "type_acft") (field mm "type_eng"))
      || hasattr mm "code").

(** A model-reference table without its engine-type column. *)
Definition no_engine_type_db : gmap string (list (list string)) :=
  archive [ [ "CODE"; "MFR"; "MODEL"; "TYPE-ACFT"; "" ];
            [ "A1"; "Acme"; "Falcon"; "6"; "" ] ]
          (MASTER_sample "20220101") (DEREG_sample "20220101").

(** ** Whitespace at the ends of a string *)

Definition starts_with_space (s : string) : bool :=
  match s with
  | String c _ => Str.is_space c
  | EmptyString => false
  end.

Fixpoint ends_with_space (s : string) : bool :=
  match s with
  | EmptyString => false
  | String c EmptyString => Str.is_space c
  | String _ r => ends_with_space r
  end.


(** Header tokens with whitespace around them: two spaces on either side,
    and a tab in front with a line feed behind. *)
Definition padded_token : string := "  ZIP CODE  ".
Definition tab_token : string := String "009" ("N-NUMBER" +:+ String "010" "").

(** ** C5 as the specification states it

    For every data row of a member: a record with the row's stripped
    fields is yielded exactly when the row has as many fields as the
    header, the last column apart. *)





(** ** The texts that [format_date] reformats *)

Definition is_date_char (c : ascii) : bool :=
  Str.is_digit c || bool_decide (c = " "%char).

Definition date_chars : list ascii := digit_chars ++ [ " "%char ].

(** A text of digits that denotes a number from [lo] to [hi]. *)
Definition in_range (lo hi : Z) (t : string) : bool :=
  Str.forallb Str.is_digit t && bool_decide (lo <= num t <= hi).

(** A month is written with one digit (1 to 9) or with two (01 to 12). *)
Definition month_text_ok (t : string) : bool :=
  match Str.len t with
  | 1%nat => in_range 1 9 t
  | 2%nat => in_range 1 12 t
  | _ => false
  end.

(** A day is written with one digit (1 to 9), with two (01 to 31), or with
    a space and one digit (1 to 9). *)
Definition day_text_ok (t : string) : bool :=
  if Str.startswith " " t
  then bool_decide (Str.len t = 2%nat) && in_range 1 9 (Str.drop 1 t)
  else match Str.len t with
       | 1%nat => in_range 1 9 t
       | 2%nat => in_range 1 31 t
       | _ => false
       end.

(** The number a month or day text denotes. *)
Definition text_value (t : string) : Z :=
  num (if Str.startswith " " t then Str.drop 1 t else t).

(** The month and the day in the text after the year: the month takes two
    characters when that leaves a month and a day, and one character
    otherwise. *)
Definition month_day_layout (t : string) : option (string * string) :=
  List.find (fun '(m, d) => month_text_ok m && day_text_ok d)
    [ (Str.take 2 t, Str.drop 2 t); (Str.take 1 t, Str.drop 1 t) ].

(** Year, month and day of a text: four digits, then a month and a day. *)
Definition date_layout (s : string) : option (string * string * string) :=
  let Y := Str.take 4 s in
  if bool_decide (Str.len Y = 4%nat) && Str.forallb Str.is_digit Y
  then '(m, d) ← month_day_layout (Str.drop 4 s); Some (Y, m, d)
  else None.

(** What C1, amended, says of a text that is not empty. *)
Definition reformatted (s : string) : result string :=
  match date_layout s with
  | Some (Y, m, d) =>
      if calendar_date (num Y) (text_value m) (text_value d)
      then Ok (pretty (num Y) +:+ "-" +:+ Strptime.two_digits (text_value m)
                 +:+ "-" +:+ Strptime.two_digits (text_value d))
      else Raise ValueError
  | None => Raise ValueError
  end.

Definition layout_check (t : string) : bool :=
  match month_day_layout t with
  | Some (m, d) =>
      bool_decide (month_day_match t = Some (m, d, EmptyString))
      && bool_decide (Strptime.int m = Ok (text_value m))
      && bool_decide (Strptime.int d = Ok (text_value d))
  | None =>
      match month_day_match t with
      | Some (_, _, rest) => negb (bool_decide (rest = EmptyString))
      | None => true
      end
  end.

(** The texts of [n] digits and spaces. *)
Fixpoint texts (n : nat) : list string :=
  match n with
  | O => [ EmptyString ]
  | S k => c ← date_chars; t ← texts k; [ String c t ]
  end.

(** * Properties *)

(** ** Characters *)

Ltac by_cases_on_char c :=
  destruct c as [[] [] [] [] [] [] [] []]; vm_compute; try reflexivity; try congruence.

Lemma is_space_lower_char c : Str.is_space (Str.lower_char c) = Str.is_space c.
Proof. by_cases_on_char c. Qed.

Lemma is_upper_lower_char c : Str.is_upper (Str.lower_char c) = false.
Proof. by_cases_on_char c. Qed.

Lemma lower_lstrip s : Str.lower (Str.lstrip s) = Str.lstrip (Str.lower s).
Proof.
  induction s as [|c s IH]; [reflexivity|].
  cbn [Str.lstrip Str.lower Str.map]. rewrite is_space_lower_char.
  destruct (Str.is_space c); [exact IH | reflexivity].
Qed.

Lemma lower_rstrip s : Str.lower (Str.rstrip s) = Str.rstrip (Str.lower s).
Proof.
  induction s as [|c s IH]; [reflexivity|].
  cbn [Str.rstrip Str.lower Str.map]. fold (Str.lower s). rewrite <- IH.
  destruct (Str.rstrip s) as [|d t]; cbn [Str.lower Str.map].
  - rewrite is_space_lower_char. now destruct (Str.is_space c).
  - reflexivity.
Qed.

Lemma lower_strip s : Str.lower (Str.strip s) = Str.strip (Str.lower s).
Proof. unfold Str.strip. now rewrite lower_rstrip, lower_lstrip. Qed.

Lemma lower_has_no_upper s :
  Str.forallb (fun c => negb (Str.is_upper c)) (Str.lower s) = true.
Proof.
  induction s as [|c s IH]; [reflexivity|].
  cbn [Str.lower Str.map Str.forallb]. rewrite is_upper_lower_char. exact IH.
Qed.

Lemma substituted_char_ok c :
  Str.is_upper c = false -> is_paren c = false ->
  tidy_output_char (if is_dash_or_space c then "_"%char else c) = true.
Proof.
  intros Hu Hp. destruct (is_dash_or_space c) eqn:Hd; [reflexivity|].
  unfold tidy_output_char. now rewrite Hu, Hp, Hd.
Qed.

Lemma subs_output_chars t :
  Str.forallb (fun c => negb (Str.is_upper c)) t = true ->
  Str.forallb tidy_output_char (sub_dash_space (sub_parens t)) = true.
Proof.
  induction t as [|c t IH]; [reflexivity|].
  cbn [Str.forallb]. intros [Hc Ht]%andb_prop.
  unfold sub_parens, sub_dash_space in *. cbn [Str.filter].
  destruct (is_paren c) eqn:Hp; cbn [negb Str.map Str.forallb]; [now apply IH|].
  rewrite substituted_char_ok; [now apply IH | now destruct (Str.is_upper c) | exact Hp].
Qed.

Lemma rstrip_cons c s :
  Str.rstrip (String c s) =
    match Str.rstrip s with
    | EmptyString => if Str.is_space c then EmptyString else String c EmptyString
    | t => String c t
    end.
Proof. reflexivity. Qed.

Lemma append_cons c t r : String c t +:+ r = String c (t +:+ r).
Proof. reflexivity. Qed.

(** ** C9: the header normaliser *)

Lemma append_nil_r s : s +:+ "" = s.
Proof. induction s as [|c s IH]; [reflexivity|]. now rewrite append_cons, IH. Qed.

Lemma append_assoc s t u : (s +:+ t) +:+ u = s +:+ t +:+ u.
Proof. induction s as [|c s IH]; [reflexivity|]. now rewrite !append_cons, IH. Qed.

Lemma lstrip_spaces_append l x :
  Str.forallb Str.is_space l = true -> Str.lstrip (l +:+ x) = Str.lstrip x.
Proof.
  induction l as [|c l IH]; [reflexivity|]. cbn [Str.forallb].
  intros [Hc Hl]%andb_prop. rewrite append_cons. cbn [Str.lstrip]. rewrite Hc. now apply IH.
Qed.

Lemma lstrip_no_leading_space x : starts_with_space x = false -> Str.lstrip x = x.
Proof. destruct x as [|c x]; [reflexivity|]. cbn. now intros ->. Qed.

Lemma rstrip_spaces r : Str.forallb Str.is_space r = true -> Str.rstrip r = "".
Proof.
  induction r as [|c r IH]; [reflexivity|]. cbn [Str.forallb].
  intros [Hc Hr]%andb_prop. rewrite rstrip_cons, (IH Hr). now rewrite Hc.
Qed.

Lemma rstrip_append_spaces x r :
  Str.forallb Str.is_space r = true -> ends_with_space x = false ->
  Str.rstrip (x +:+ r) = x.
Proof.
  intros Hr. induction x as [|c x IH]; [intros _; now apply rstrip_spaces|].
  rewrite append_cons, rstrip_cons. destruct x as [|d x].
  - cbn [ends_with_space]. intros Hc. change ("" +:+ r) with r.
    now rewrite (rstrip_spaces r Hr), Hc.
  - intros Hx. change (ends_with_space (String c (String d x)))
      with (ends_with_space (String d x)) in Hx. now rewrite (IH Hx).
Qed.

Lemma strip_core l core r :
  Str.forallb Str.is_space l = true -> Str.forallb Str.is_space r = true ->
  starts_with_space core = false -> ends_with_space core = false ->
  Str.strip (l +:+ core +:+ r) = core.
Proof.
  intros Hl Hr Hs He. unfold Str.strip. rewrite (lstrip_spaces_append l _ Hl).
  destruct core as [|c core].
  - change ("" +:+ r) with r.
    destruct r as [|d r]; [reflexivity|]. cbn [Str.forallb] in Hr.
    apply andb_prop in Hr as [Hd Hr']. cbn [Str.lstrip]. rewrite Hd.
    replace (Str.lstrip r) with (Str.lstrip (r +:+ "")) by now rewrite append_nil_r.
    now rewrite (lstrip_spaces_append r "" Hr').
  - rewrite append_cons. cbn [Str.lstrip]. cbn [starts_with_space] in Hs. rewrite Hs.
    rewrite <- append_cons. now apply rstrip_append_spaces.
Qed.

(** C9. [_tidy_header] returns the token lower-cased, stripped of the
    surrounding whitespace, without its parentheses and with an underscore
    for every space and hyphen.  It agrees with the four steps as the
    specification words them; its result holds no parenthesis, space,
    hyphen or upper-case letter; ["TYPE-REGISTRANT (Sub)"] becomes
    ["type_registrant_sub"].  Whatever whitespace stands around a token is
    dropped and nothing else is: a token written as whitespace, a core
    that neither starts nor ends with whitespace, and whitespace again, is
    turned into the core with its letters lower-cased, its parentheses
    removed and an underscore for each space and hyphen; so
    ["  ZIP CODE  "] becomes ["zip_code"], and a tab in front and a line
    feed behind are dropped alike. *)
Theorem tidy_header_normalises :
  (forall raw, _tidy_header raw = tidyHeaderToken raw)
  /\ (forall raw, Str.forallb tidy_output_char (_tidy_header raw) = true)
  /\ _tidy_header "TYPE-REGISTRANT (Sub)" = "type_registrant_sub"
  /\ (forall l core r,
        Str.forallb Str.is_space l = true ->
        Str.forallb Str.is_space r = true ->
        starts_with_space core = false ->
        ends_with_space core = false ->
        _tidy_header (l +:+ core +:+ r)
        = Str.map (fun c => if is_dash_or_space c then "_"%char else c)
            (Str.filter (fun c => negb (is_paren c)) (Str.map Str.lower_char core)))
  /\ _tidy_header padded_token = "zip_code"
  /\ _tidy_header tab_token = "n_number"
  /\ _tidy_header " (A) " = "a".
Proof.
  split; [|split; [|split; [|split; [|repeat split]]]].
  - intros raw. unfold _tidy_header, tidyHeaderToken, sub_parens, sub_dash_space.
    now rewrite lower_strip.
  - intros raw. unfold _tidy_header. apply subs_output_chars, lower_has_no_upper.
  - reflexivity.
  - intros l core r Hl Hr Hs He. unfold _tidy_header.
    now rewrite (strip_core l core r Hl Hr Hs He).
Qed.

(** ** C7: the drone predicate *)

(** C7. [is_drone] is true exactly when the airframe code is ["6"] and the
    engine code is ["10"]; every other pair gives false, among them the
    pairs that only start with these codes (["6x"], ["100"]). *)
Theorem is_drone_exact_match :
  (forall acft_type eng_type,
      is_drone acft_type eng_type = true <-> acft_type = "6" /\ eng_type = "10")
  /\ (forall acft_type eng_type,
      acft_type <> "6" \/ eng_type <> "10" -> is_drone acft_type eng_type = false)
  /\ is_drone "6x" "10" = false
  /\ is_drone "6" "100" = false
  /\ is_drone "6" "10" = true.
Proof.
  assert (Hiff : forall a e, is_drone a e = true <-> a = "6" /\ e = "10").
  { intros a e. unfold is_drone, DRONE_AIRCRAFT_TYPE, DRONE_ENGINE_TYPE.
    rewrite andb_true_iff, !bool_decide_eq_true. reflexivity. }
  split; [exact Hiff|]. split; [|repeat split].
  intros a e Hne. destruct (is_drone a e) eqn:E; [|reflexivity].
  apply Hiff in E as [-> ->]. destruct Hne as [H|H]; now elim H.
Qed.

(** ** C8: the ZIP code *)

Lemma take_drop_9 z :
  Str.len z = 9%nat ->
  z = Str.take 5 z +:+ Str.drop 5 z
  /\ Str.len (Str.take 5 z) = 5%nat /\ Str.len (Str.drop 5 z) = 4%nat.
Proof.
  unfold Str.len. intros H.
  do 9 (destruct z as [|? z]; [discriminate H|]).
  destruct z; [|discriminate H]. repeat split.
Qed.

(** C8. [format_zip] rewrites a string of exactly nine characters as its
    first five characters, a hyphen and its last four; every other value,
    [None] and the empty string included, comes back as it went in; the
    reformatted value differs from the input, so the rewrite happens for
    length nine and for nothing else. *)
Theorem format_zip_nine_only :
  (forall z, Str.len z = 9%nat ->
     exists a b, z = a +:+ b /\ Str.len a = 5%nat /\ Str.len b = 4%nat
                 /\ format_zip (Some z) = Some (a +:+ "-" +:+ b))
  /\ (forall z, Str.len z <> 9%nat -> format_zip (Some z) = Some z)
  /\ format_zip None = None
  /\ (forall zip, format_zip zip <> zip <-> exists z, zip = Some z /\ Str.len z = 9%nat)
  /\ format_zip (Some "123456789") = Some "12345-6789"
  /\ format_zip (Some "12345") = Some "12345"
  /\ format_zip (Some "") = Some "".
Proof.
  assert (H9 : forall z, Str.len z = 9%nat ->
            format_zip (Some z) = Some (Str.take 5 z +:+ "-" +:+ Str.drop 5 z)).
  { intros z Hz. unfold format_zip. rewrite Hz.
    destruct z; [discriminate Hz|]. reflexivity. }
  assert (Hother : forall z, Str.len z <> 9%nat -> format_zip (Some z) = Some z).
  { intros z Hz. unfold format_zip.
    rewrite (bool_decide_eq_false_2 _ Hz), andb_false_r. reflexivity. }
  split; [|split; [exact Hother|split; [reflexivity|split; [|repeat split]]]].
  - intros z Hz. destruct (take_drop_9 z Hz) as (Hsplit & Ha & Hb).
    exists (Str.take 5 z), (Str.drop 5 z). auto.
  - intros [z|]; split.
    + intros Hne. exists z. split; [reflexivity|].
      destruct (decide (Str.len z = 9%nat)) as [|Hn]; [assumption|].
      elim Hne. now apply Hother.
    + intros (z' & [= <-] & Hz). rewrite (H9 z Hz). intros [= Heq].
      apply (f_equal String.length) in Heq. unfold Str.len in Hz.
      revert Heq. do 9 (destruct z as [|? z]; [discriminate Hz|]).
      destruct z; [|discriminate Hz]. discriminate.
    + intros Hne. now elim Hne.
    + intros (z & [=] & _).
Qed.

(** ** The error monad *)

Lemma bind_Ok {A B} (m : result A) (f : A -> result B) (b : B) :
  m ≫= f = Ok b <-> exists a, m = Ok a /\ f a = Ok b.
Proof.
  destruct m as [a|e]; cbn.
  - split; [intros H; exists a; auto | intros (a' & [= <-] & H); exact H].
  - split; [discriminate | intros (a' & [=] & _)].
Qed.


Lemma getattr_Ok_field r name v : getattr r name = Ok v -> hasattr r name = true /\ v = field r name.
Proof.
  unfold hasattr, getattr, field.
  destruct (field_value _ _ _); [intros [= ->]; auto | discriminate].
Qed.

Lemma getattr_cases r name :
  getattr r name = if hasattr r name then Ok (field r name) else Raise AttributeError.
Proof. unfold getattr, hasattr, field. now destruct (field_value _ _ _). Qed.

Lemma has_attrs_hasattr names r name :
  has_attrs names r -> name ∈ names -> hasattr r name = true.
Proof.
  unfold has_attrs. rewrite forallb_forall. intros H Hin.
  apply H, list_elem_of_In, Hin.
Qed.

(** ** Dictionary displays *)

Lemma dict_display_snoc {V} (items : list (string * V)) k v :
  dict_display (items ++ [(k, v)]) = <[ k := v ]> (dict_display items).
Proof. unfold dict_display. now rewrite foldl_app. Qed.

Lemma dict_display_lookup_None {V} (items : list (string * V)) k :
  dict_display items !! k = None <-> k ∉ items.*1.
Proof.
  induction items as [|[k' v'] items IH] using rev_ind.
  - cbn. rewrite lookup_empty. split; [intros _; apply not_elem_of_nil | reflexivity].
  - rewrite dict_display_snoc, fmap_app, not_elem_of_app. cbn.
    rewrite lookup_insert. destruct (decide (k' = k)) as [->|Hne].
    + split; [discriminate | intros [_ H]; elim H; apply list_elem_of_here].
    + rewrite IH. split; [intros H; split; [exact H|] | intros [H _]; exact H].
      intros [->|H']%elem_of_cons; [now elim Hne | now apply not_elem_of_nil in H'].
Qed.

Lemma dict_display_lookup_Some {V} (items : list (string * V)) k v :
  NoDup items.*1 ->
  dict_display items !! k = Some v <-> (k, v) ∈ items.
Proof.
  induction items as [|[k' v'] items IH] using rev_ind; intros Hnd.
  - cbn. rewrite lookup_empty. split; [discriminate | intros H; now apply not_elem_of_nil in H].
  - rewrite fmap_app in Hnd. apply NoDup_app in Hnd as (Hnd & Hfresh & _).
    rewrite dict_display_snoc, lookup_insert, elem_of_app, list_elem_of_singleton.
    destruct (decide (k' = k)) as [->|Hne].
    + split; [intros [= ->]; now right|].
      intros [Hin|[= ->]]; [|reflexivity].
      exfalso. apply (Hfresh k); [|cbn; apply list_elem_of_here].
      apply list_elem_of_fmap. now exists (k, v).
    + rewrite (IH Hnd). split; [now left | intros [H|[= -> ->]]; [exact H | now elim Hne]].
Qed.

Lemma dict_get_absent {V} (d : gmap string V) key dflt :
  d !! key = None -> dict_get d key dflt = dflt.
Proof. unfold dict_get. now intros ->. Qed.

(** ** The projected rows *)

Ltac unbind H :=
  repeat (let x := fresh "x" in
          let Hx := fresh "Hx" in
          apply bind_Ok in H as (x & Hx & H); cbv beta in H;
          try (apply getattr_Ok_field in Hx as [_ ->])).

Lemma master_cells_Ok mfr_mdl ac cells :
  master_cells mfr_mdl ac = Ok cells ->
  exists cert_issue air_worth last_action,
    format_date (Some (field ac "cert_issue_date")) = Ok cert_issue
    /\ format_date (Some (field ac "air_worth_date")) = Ok air_worth
    /\ format_date (Some (field ac "last_action_date")) = Ok last_action
    /\ cells =
       [ field ac "n_number"; field ac "serial_number"; field ac "mode_s_code";
         field ac "mode_s_code_hex"; field ac "mfr_mdl_code";
         field mfr_mdl "mfr"; field mfr_mdl "model"; field mfr_mdl "no_eng";
         field mfr_mdl "ac_weight";
         dict_get REGISTRANT_TYPES (field ac "type_registrant") "";
         field ac "city"; field ac "state";
         csv_field (format_zip (Some (field ac "zip_code")));
         dict_get STATUS_CODES (field ac "status_code") "";
         cert_issue; air_worth; last_action; "" ].
Proof.
  unfold master_cells. intros H. unbind H. injection H as <-.
  eexists _, _, _. repeat split; eassumption.
Qed.

Lemma dereg_cells_Ok mfr_mdl ac cells :
  dereg_cells mfr_mdl ac = Ok cells ->
  exists cert_issue air_worth last_act cancel,
    format_date (Some (field ac "cert_issue_date")) = Ok cert_issue
    /\ format_date (Some (field ac "air_worth_date")) = Ok air_worth
    /\ format_date (Some (field ac "last_act_date")) = Ok last_act
    /\ format_date (Some (field ac "cancel_date")) = Ok cancel
    /\ cells =
       [ field ac "n_number"; field ac "serial_number"; field ac "mode_s_code";
         field ac "mode_s_code_hex"; field ac "mfr_mdl_code";
         field mfr_mdl "mfr"; field mfr_mdl "model"; field mfr_mdl "no_eng";
         field mfr_mdl "ac_weight";
         dict_get REGISTRANT_TYPES (field ac "indicator_group") "";
         field ac "city_mail"; field ac "state_abbrev_mail";
         csv_field (format_zip (Some (field ac "zip_code_mail")));
         dict_get STATUS_CODES (field ac "status_code") "";
         cert_issue; air_worth; last_act; cancel ].
Proof.
  unfold dereg_cells. intros H. unbind H. injection H as <-.
  eexists _, _, _, _. repeat split; eassumption.
Qed.

(** ** C6: the translation tables *)

Lemma REGISTRANT_TYPES_lookup code label :
  REGISTRANT_TYPES !! code = Some label <-> (code, label) ∈ REGISTRANT_TYPES_items.
Proof. apply dict_display_lookup_Some, (bool_decide_unpack _). vm_compute. exact I. Qed.

(** C6, as the specification spells the labels: the labels of the table
    would be the eight of [registrant_labels_of_the_spec].  The table has
    no code for ["Non-Citizen Corporation"]: its label for code 8 is
    ["Non Citizen Corporation"]. *)
Lemma registrant_labels_not_as_spelled :
  ~ (forall label,
       label ∈ registrant_labels_of_the_spec
       <-> exists code, REGISTRANT_TYPES !! code = Some label).
Proof.
  intros H.
  destruct (proj1 (H "Non-Citizen Corporation")) as (code & Hcode).
  { unfold registrant_labels_of_the_spec.
    do 6 apply list_elem_of_further. apply list_elem_of_here. }
  apply REGISTRANT_TYPES_lookup in Hcode.
  unfold REGISTRANT_TYPES_items in Hcode.
  repeat (apply elem_of_cons in Hcode as [Heq|Hcode]; [discriminate Heq|]).
  now apply not_elem_of_nil in Hcode.
Qed.

(** C6, amended. The registrant-type table maps exactly the codes 1, 2,
    3, 4, 5, 7, 8 and 9, to Individual, Partnership, Corporation, Co-Owned,
    Government, LLC, Non Citizen Corporation and Non Citizen Co-Owned (the
    last two without a hyphen after Non); the status table maps the empty
    code to Invalid; a code that is in neither table translates to the
    empty label, and that translation, which cannot fail, is the one the
    rows of both registration tables are projected with. *)
Theorem translation_tables :
  (forall code label,
     REGISTRANT_TYPES !! code = Some label
     <-> (code, label) ∈
           [ ("1", "Individual"); ("2", "Partnership"); ("3", "Corporation");
             ("4", "Co-Owned"); ("5", "Government"); ("7", "LLC");
             ("8", "Non Citizen Corporation"); ("9", "Non Citizen Co-Owned") ])
  /\ STATUS_CODES !! "" = Some "Invalid"
  /\ (forall code, REGISTRANT_TYPES !! code = None ->
        dict_get REGISTRANT_TYPES code "" = "")
  /\ (forall code, STATUS_CODES !! code = None ->
        dict_get STATUS_CODES code "" = "")
  /\ (forall mfr_mdl ac cells, master_cells mfr_mdl ac = Ok cells ->
        cells !! 9%nat = Some (dict_get REGISTRANT_TYPES (field ac "type_registrant") "")
        /\ cells !! 13%nat = Some (dict_get STATUS_CODES (field ac "status_code") ""))
  /\ (forall mfr_mdl ac cells, dereg_cells mfr_mdl ac = Ok cells ->
        cells !! 9%nat = Some (dict_get REGISTRANT_TYPES (field ac "indicator_group") "")
        /\ cells !! 13%nat = Some (dict_get STATUS_CODES (field ac "status_code") "")).
Proof.
  split; [exact REGISTRANT_TYPES_lookup|].
  split; [vm_compute; reflexivity|].
  split; [intros code; apply dict_get_absent|].
  split; [intros code; apply dict_get_absent|].
  split.
  - intros mm ac cells (? & ? & ? & _ & _ & _ & ->)%master_cells_Ok. split; reflexivity.
  - intros mm ac cells (? & ? & ? & ? & _ & _ & _ & _ & ->)%dereg_cells_Ok. split; reflexivity.
Qed.

(** ** C10: an empty member *)

(** C10. Reading a member that has no line at all gives a generator that
    raises at its first element (the [StopIteration] of the header read
    comes out as [RuntimeError]) and yields nothing; when the member is one
    of the three tables the run ends with an exception. *)
Theorem empty_member_raises
    (database : gmap string (list (list string))) (file : string) :
  database !! file = Some [] ->
  read_file database file = Throw RuntimeError
  /\ yielded (read_file database file) = []
  /\ read_file database file <> Return
  /\ (file ∈ [ "ACFTREF.txt"; "MASTER.txt"; "DEREG.txt" ] ->
      is_Some (raised (parse_drone_data database)))
  /\ (file = "ACFTREF.txt" ->
      parse_drone_data database = Outcome [] (Some RuntimeError)).
Proof.
  intros Hempty.
  assert (Hread : read_file database file = Throw RuntimeError).
  { unfold read_file. now rewrite Hempty. }
  rewrite Hread. split; [reflexivity|]. split; [reflexivity|]. split; [discriminate|].
  split.
  - intros Hfile. unfold parse_drone_data.
    destruct (build_mfr_mdls (read_file database "ACFTREF.txt") ∅) as [m|e] eqn:Hbuild;
      [|cbn; eauto].
    destruct (write_rows (master_row m) _ _) as [f [e|]] eqn:Hmaster; [cbn; eauto|].
    apply elem_of_cons in Hfile as [->|Hfile].
    { rewrite Hread in Hbuild. discriminate Hbuild. }
    apply elem_of_cons in Hfile as [->|Hfile].
    { rewrite Hread in Hmaster. discriminate Hmaster. }
    apply list_elem_of_singleton in Hfile as ->.
    rewrite Hread. cbn. eauto.
  - intros ->. unfold parse_drone_data. now rewrite Hread.
Qed.

Lemma empty_member_raises_witness :
  read_file empty_master_db "MASTER.txt" = Throw RuntimeError
  /\ is_Some (raised (parse_drone_data empty_master_db)).
Proof.
  destruct (empty_member_raises empty_master_db "MASTER.txt") as (H1 & _ & _ & H2 & _).
  - vm_compute. reflexivity.
  - split; [exact H1|]. apply H2.
    apply list_elem_of_further, list_elem_of_here.
Defined.

(** ** C5: binding the rows of a member *)

Lemma read_rows_spec header reader :
  thrown (read_rows header reader) = None
  /\ yielded (read_rows header reader) =
     omap (fun r => if decide (length (removelast r) = length header)
                    then Some (Row header (map Str.strip (removelast r)))
                    else None) reader.
Proof.
  induction reader as [|r reader [IHt IHy]]; [split; reflexivity|].
  cbn [read_rows omap list_omap]. rewrite length_map.
  destruct (decide (length (removelast r) = length header)) as [Heq|Hne].
  - rewrite (bool_decide_eq_true_2 _ Heq). cbn. rewrite IHy. split; [exact IHt | reflexivity].
  - rewrite (bool_decide_eq_false_2 _ Hne). split; [exact IHt | exact IHy].
Qed.

(** ** What [namedtuple] accepts *)

Lemma check_field_names_Ok seen names :
  check_field_names seen names = Ok ()
  <-> Forall (fun name => Str.startswith "_" name = false /\ name ∉ seen) names
      /\ NoDup names.
Proof.
  revert seen. induction names as [|name rest IH]; intros seen; cbn [check_field_names].
  - split; [intros _; split; constructor | reflexivity].
  - destruct (Str.startswith "_" name) eqn:Hus.
    { split; [discriminate | intros [Hall _]]. apply Forall_cons in Hall as [[? _] _]. congruence. }
    case_bool_decide as Hseen.
    { split; [discriminate | intros [Hall _]]. apply Forall_cons in Hall as [[_ ?] _]. contradiction. }
    rewrite IH, NoDup_cons, Forall_cons. split.
    + intros [Hall Hnd]. split; [split; [auto|]|split; [|exact Hnd]].
      * eapply Forall_impl; [exact Hall|]. intros x [Hx Hin]. split; [exact Hx|].
        intros Hxs. apply Hin, elem_of_union. now right.
      * intros Hin. rewrite Forall_forall in Hall. destruct (Hall _ Hin) as [_ Hn].
        apply Hn, elem_of_union. left. now apply elem_of_singleton.
    + intros [[_ Hall] [Hfresh Hnd]]. split; [|exact Hnd].
      rewrite Forall_forall in *. intros x Hx. destruct (Hall x Hx) as [Hus' Hxs].
      split; [exact Hus'|]. intros [Heq%elem_of_singleton|Hin]%elem_of_union; [|contradiction].
      subst x. contradiction.
Qed.

Lemma check_field_names_raises seen names e :
  check_field_names seen names = Raise e -> e = ValueError.
Proof.
  revert seen. induction names as [|name rest IH]; intros seen; cbn [check_field_names];
    [discriminate|].
  destruct (Str.startswith "_" name); [now intros [= <-]|].
  case_bool_decide; [now intros [= <-] | apply IH].
Qed.

Lemma namedtuple_row names :
  namedtuple "row" names = if decide (valid_header names) then Ok names else Raise ValueError.
Proof.
  unfold namedtuple. cbn [forallb].
  replace (isidentifier "row" && negb (iskeyword "row")) with true by (vm_compute; reflexivity).
  cbn [andb].
  destruct (forallb _ names) eqn:Hids.
  - destruct (check_field_names ∅ names) as [[]|e] eqn:Hcheck; cbn [mbind result_bind].
    + rewrite decide_True; [reflexivity|].
      apply check_field_names_Ok in Hcheck as [Hall Hnd]. split; [|exact Hnd].
      rewrite forallb_forall in Hids. rewrite Forall_forall in *.
      intros name Hin. unfold valid_field_name.
      rewrite (Hids name) by now apply list_elem_of_In.
      now rewrite (proj1 (Hall name Hin)).
    + rewrite (check_field_names_raises _ _ _ Hcheck). rewrite decide_False; [reflexivity|].
      intros [Hall Hnd].
      assert (Hok : check_field_names ∅ names = Ok ()); [|congruence].
      apply check_field_names_Ok. split; [|exact Hnd].
      eapply Forall_impl; [exact Hall|]. intros name Hname. unfold valid_field_name in Hname.
      apply andb_prop in Hname as [_ Hus]. split; [now destruct (Str.startswith _ _)|].
      apply not_elem_of_empty.
  - rewrite decide_False; [reflexivity|]. intros [Hall _].
    assert (Hids' : forallb (fun name => isidentifier name && negb (iskeyword name)) names = true);
      [|congruence].
    apply forallb_forall. intros name Hin%list_elem_of_In.
    rewrite Forall_forall in Hall. specialize (Hall name Hin).
    unfold valid_field_name in Hall. now apply andb_prop in Hall as [-> _].
Qed.

Lemma read_file_thrown database file e :
  thrown (read_file database file) = Some e -> read_file database file = Throw e.
Proof.
  unfold read_file. destruct (database !! file) as [[|first reader]|];
    [now intros [= ->]| |now intros [= ->]].
  rewrite namedtuple_row. destruct (decide _); [|now intros [= ->]].
  destruct (read_rows_spec (map _tidy_header (removelast first)) reader) as [-> _].
  discriminate.
Qed.

(** Stripping takes whitespace off both ends and nothing else. *)







(** ** C4: the model lookup *)

Lemma build_mfr_mdls_lookup g acc m code :
  build_mfr_mdls g acc = Ok m ->
  m !! code =
    match last (filter (fun mm => is_drone (field mm "type_acft") (field mm "type_eng") = true
                                  /\ field mm "code" = code) (yielded g)) with
    | Some mm => Some mm
    | None => acc !! code
    end.
Proof.
  revert acc. induction g as [mm rest IH| |e]; intros acc H;
    cbn [build_mfr_mdls yielded] in *; [|now injection H as ->|discriminate H].
  apply bind_Ok in H as (ta & [_ ->]%getattr_Ok_field & H). cbv beta in H.
  apply bind_Ok in H as (te & [_ ->]%getattr_Ok_field & H). cbv beta in H.
  rewrite filter_cons. destruct (is_drone _ _) eqn:Hd.
  - apply bind_Ok in H as (c & [_ ->]%getattr_Ok_field & H). cbv beta in H.
    rewrite (IH _ H). destruct (decide (field mm "code" = code)) as [Hc|Hc].
    + rewrite decide_True by auto. rewrite last_cons.
      destruct (last _); [reflexivity|]. rewrite Hc. apply lookup_insert_eq.
    + rewrite decide_False by (intros [_ ?]; contradiction).
      destruct (last _); [reflexivity|]. now apply lookup_insert_ne.
  - rewrite decide_False by (intros [? _]; discriminate). apply (IH _ H).
Qed.

Lemma build_mfr_mdls_elem g m code mm :
  build_mfr_mdls g ∅ = Ok m ->
  m !! code = Some mm ->
  mm ∈ yielded g
  /\ is_drone (field mm "type_acft") (field mm "type_eng") = true
  /\ field mm "code" = code.
Proof.
  intros Hbuild Hmm.
  rewrite (build_mfr_mdls_lookup _ _ _ code Hbuild), lookup_empty in Hmm.
  destruct (last _) as [mm'|] eqn:Hlast; [|discriminate Hmm].
  injection Hmm as ->. apply last_Some in Hlast as (l' & Hl').
  assert (Hin : mm ∈ l' ++ [mm]) by (apply elem_of_app; right; apply list_elem_of_here).
  rewrite <- Hl' in Hin. apply list_elem_of_filter in Hin as [[Hd Hc] Hin]. auto.
Qed.

(** C4. When the dictionary comprehension over the model-reference table
    completes, the code [code] is mapped to the last of the entries read
    whose type fields satisfy the drone predicate and whose code is
    [code], and to nothing when there is none: the map holds the drone
    entries and no others, under their codes, a later entry replacing an
    earlier one with the same code.  The map is complete before the output
    is opened, and both registration tables are processed with it. *)
Theorem mfr_mdls_last_drone_entry_wins
    (database : gmap string (list (list string))) (mfr_mdls : gmap string row) :
  build_mfr_mdls (read_file database "ACFTREF.txt") ∅ = Ok mfr_mdls ->
  let entries := yielded (read_file database "ACFTREF.txt") in
  let drone mm := is_drone (field mm "type_acft") (field mm "type_eng") = true in
  (forall code,
     mfr_mdls !! code = last (filter (fun mm => drone mm /\ field mm "code" = code) entries))
  /\ (forall code mm, mfr_mdls !! code = Some mm ->
        mm ∈ entries /\ drone mm /\ field mm "code" = code)
  /\ (forall mm, mm ∈ entries -> drone mm -> is_Some (mfr_mdls !! field mm "code"))
  /\ parse_drone_data database =
       let active := write_rows (master_row mfr_mdls)
                       (read_file database "MASTER.txt") [ DRONE_DATA_HEADERS ] in
       match raised active with
       | Some _ => active
       | None => write_rows (dereg_row mfr_mdls)
                   (read_file database "DEREG.txt") (written active)
       end.
Proof.
  intros Hbuild entries drone.
  assert (Hlookup : forall code,
    mfr_mdls !! code = last (filter (fun mm => drone mm /\ field mm "code" = code) entries)).
  { intros code. rewrite (build_mfr_mdls_lookup _ _ _ code Hbuild), lookup_empty.
    now destruct (last _). }
  split; [exact Hlookup|]. split; [|split].
  - intros code mm Hmm. exact (build_mfr_mdls_elem _ _ _ _ Hbuild Hmm).
  - intros mm Hin Hd. rewrite Hlookup.
    destruct (last _) eqn:Hlast; [eauto|].
    apply last_None in Hlast.
    assert (Hmm : mm ∈ filter (fun mm' => drone mm' /\ field mm' "code" = field mm "code") entries).
    { apply list_elem_of_filter. auto. }
    rewrite Hlast in Hmm. now apply not_elem_of_nil in Hmm.
  - unfold parse_drone_data. rewrite Hbuild. cbv zeta.
    now destruct (write_rows (master_row mfr_mdls) _ _) as [f [e|]].
Qed.

Lemma mfr_mdls_last_drone_entry_wins_witness :
  exists mfr_mdls,
    build_mfr_mdls (read_file sample_db "ACFTREF.txt") ∅ = Ok mfr_mdls
    /\ mfr_mdls !! "A1" = Some (Row (map _tidy_header (removelast (hd [] ACFTREF_sample)))
                                  [ "A1"; "Acme"; "Falcon 2"; "6"; "10"; "1"; "0"; "4"; "0";
                                    "CLASS 1"; "0"; ""; "" ])
    /\ mfr_mdls !! "B2" = None.
Proof.
  destruct (build_mfr_mdls (read_file sample_db "ACFTREF.txt") ∅) as [m|e] eqn:Hbuild;
    [|vm_compute in Hbuild; discriminate Hbuild].
  exists m. split; [reflexivity|].
  destruct (mfr_mdls_last_drone_entry_wins sample_db m Hbuild) as (Hlookup & _).
  rewrite !Hlookup. split; vm_compute; reflexivity.
Defined.

(** ** Every failure of [format_date] is a [ValueError] *)

Lemma int_digits_raises s : forall acc e,
  Strptime.int_digits acc s = Raise e -> e = ValueError.
Proof.
  induction s as [|c s IH]; intros acc e; cbn; [discriminate|].
  destruct (Str.is_digit c); [apply IH | now intros [= <-]].
Qed.

Lemma int_raises s e : Strptime.int s = Raise e -> e = ValueError.
Proof.
  unfold Strptime.int. destruct (Str.strip s); [now intros [= <-]|].
  apply int_digits_raises.
Qed.

Lemma strptime_raises s e : Strptime.strptime s = Raise e -> e = ValueError.
Proof.
  unfold Strptime.strptime.
  destruct (Strptime.format_regex_match s) as [[[[Y m] d] rest]|]; [|now intros [= <-]].
  destruct (negb _); [now intros [= <-]|].
  destruct (Strptime.int Y) as [y|e1] eqn:HY; cbn;
    [|intros [= <-]; eapply int_raises, HY].
  destruct (Strptime.int m) as [mo|e2] eqn:Hm; cbn;
    [|intros [= <-]; eapply int_raises, Hm].
  destruct (Strptime.int d) as [da|e3] eqn:Hd; cbn;
    [|intros [= <-]; eapply int_raises, Hd].
  unfold Strptime.datetime_date. destruct (_ && _); cbn; [discriminate | now intros [= <-]].
Qed.

Lemma format_date_raises dt e : format_date dt = Raise e -> e = ValueError.
Proof.
  destruct dt as [s|]; [|discriminate]. unfold format_date.
  destruct (nonempty _); [|discriminate].
  destruct (Strptime.strptime s) as [tm|e'] eqn:Hs; cbn; [discriminate|].
  intros [= <-]. eapply strptime_raises, Hs.
Qed.



(** ** Projection of a selected record *)









(** ** C2 and C3: the two registration tables

    Both loops run with the lookup that the comprehension over a
    model-reference table [g] has built. *)

Section Join.

Variable g : generator row.
Variable mfr_mdls : gmap string row.
Hypothesis Hbuild : build_mfr_mdls g ∅ = Ok mfr_mdls.






End Join.



(** The whole run on [sample_db]: the header line, the one drone of the
    active table whose model is known, and the one deregistration whose
    model code is in the lookup (the later of the two A1 entries). *)
Example parse_drone_data_sample :
  parse_drone_data sample_db =
    Outcome
      [ DRONE_DATA_HEADERS;
        [ "N100DR"; "S1"; "50000001"; "A00001"; "A1"; "Acme"; "Falcon 2"; "4";
          "CLASS 1"; "Individual"; "RENO"; "NV"; "89501-1234"; "Valid";
          "2022-01-01"; ""; "2023-01-15"; "" ];
        [ "N500"; "S5"; "50000005"; "A00005"; "A1"; "Acme"; "Falcon 2"; "4";
          "CLASS 1"; "Non Citizen Corporation"; "RENO"; "NV"; "89501"; "Valid";
          "2020-01-01"; ""; "2021-12-31"; "2022-01-01" ] ]
      None.
Proof. vm_compute. reflexivity. Qed.



(** ** Digits *)

Lemma is_digit_elem c : Str.is_digit c = true -> In c digit_chars.
Proof. by_cases_on_char c; cbn; tauto. Qed.

Lemma is_digit_not_space c : Str.is_digit c = true -> Str.is_space c = false.
Proof. by_cases_on_char c. Qed.

Lemma for_all_digits_spec p c :
  for_all_digits p = true -> Str.is_digit c = true -> p c = true.
Proof.
  unfold for_all_digits. rewrite forallb_forall. intros H Hc.
  apply H, is_digit_elem, Hc.
Qed.

Lemma month_day_checked m1 m2 d1 d2 :
  Str.is_digit m1 = true -> Str.is_digit m2 = true ->
  Str.is_digit d1 = true -> Str.is_digit d2 = true ->
  month_day_check m1 m2 d1 d2 = true.
Proof.
  intros H1 H2 H3 H4.
  assert (Hall : for_all_digits (fun m1 => for_all_digits (fun m2 =>
            for_all_digits (fun d1 => for_all_digits (fun d2 =>
              month_day_check m1 m2 d1 d2)))) = true)
    by (vm_compute; reflexivity).
  apply (for_all_digits_spec _ d2); [|exact H4].
  apply (for_all_digits_spec (fun d1 => for_all_digits (fun d2 =>
            month_day_check m1 m2 d1 d2)) d1); [|exact H3].
  apply (for_all_digits_spec (fun m2 => for_all_digits (fun d1 =>
            for_all_digits (fun d2 => month_day_check m1 m2 d1 d2))) m2); [|exact H2].
  apply (for_all_digits_spec _ m1 Hall H1).
Qed.

Lemma year_checked a b c d :
  Str.is_digit a = true -> Str.is_digit b = true ->
  Str.is_digit c = true -> Str.is_digit d = true ->
  year_check a b c d = true.
Proof.
  intros H1 H2 H3 H4.
  assert (Hall : for_all_digits (fun a => for_all_digits (fun b =>
            for_all_digits (fun c => for_all_digits (fun d =>
              year_check a b c d)))) = true)
    by (vm_compute; reflexivity).
  apply (for_all_digits_spec _ d); [|exact H4].
  apply (for_all_digits_spec (fun c => for_all_digits (fun d =>
            year_check a b c d)) c); [|exact H3].
  apply (for_all_digits_spec (fun b => for_all_digits (fun c =>
            for_all_digits (fun d => year_check a b c d))) b); [|exact H2].
  apply (for_all_digits_spec _ a Hall H1).
Qed.

(** ** [int] on digits *)

Lemma rstrip_no_space s :
  Str.forallb (fun c => negb (Str.is_space c)) s = true -> Str.rstrip s = s.
Proof.
  induction s as [|c s IH]; [reflexivity|].
  cbn [Str.forallb Str.rstrip]. intros [Hc Hs]%andb_prop. rewrite (IH Hs).
  destruct s; [|reflexivity]. now destruct (Str.is_space c).
Qed.

Lemma digits_no_space s :
  Str.forallb Str.is_digit s = true ->
  Str.forallb (fun c => negb (Str.is_space c)) s = true.
Proof.
  induction s as [|c s IH]; [reflexivity|].
  cbn [Str.forallb]. intros [Hc Hs]%andb_prop.
  now rewrite (is_digit_not_space c Hc), (IH Hs).
Qed.

Lemma strip_digits s : Str.forallb Str.is_digit s = true -> Str.strip s = s.
Proof.
  intros H. unfold Str.strip.
  assert (Hl : Str.lstrip s = s).
  { destruct s as [|c s]; [reflexivity|]. cbn [Str.forallb] in H.
    apply andb_prop in H as [Hc _]. cbn [Str.lstrip].
    now rewrite (is_digit_not_space c Hc). }
  rewrite Hl. apply rstrip_no_space, digits_no_space, H.
Qed.

Lemma int_digits_num s : forall acc,
  Str.forallb Str.is_digit s = true ->
  Strptime.int_digits acc s = Ok (num_from acc s).
Proof.
  induction s as [|c s IH]; intros acc; [reflexivity|].
  cbn [Str.forallb Strptime.int_digits num_from]. intros [-> Hs]%andb_prop.
  now apply IH.
Qed.

Lemma int_num s :
  s <> "" -> Str.forallb Str.is_digit s = true -> Strptime.int s = Ok (num s).
Proof.
  intros Hne H. unfold Strptime.int. rewrite (strip_digits s H).
  destruct s; [now elim Hne|]. now apply int_digits_num.
Qed.

(** ** The calendar *)

Lemma is_leap_leap_year y : Strptime._is_leap y = leap_year y.
Proof.
  unfold Strptime._is_leap, leap_year.
  destruct (y mod 4 =? 0) eqn:H4, (y mod 100 =? 0) eqn:H100,
    (y mod 400 =? 0) eqn:H400; try reflexivity; exfalso;
    rewrite ?Z.eqb_eq, ?Z.eqb_neq in *; Z.div_mod_to_equations; lia.
Qed.

Lemma days_in_month_calendar y m :
  1 <= m <= 12 -> Strptime._days_in_month y m = days_in_month y m.
Proof.
  intros Hm. unfold Strptime._days_in_month. rewrite is_leap_leap_year.
  assert (Hcases : m = 1 \/ m = 2 \/ m = 3 \/ m = 4 \/ m = 5 \/ m = 6 \/ m = 7
                   \/ m = 8 \/ m = 9 \/ m = 10 \/ m = 11 \/ m = 12) by lia.
  unfold days_in_month.
  repeat (destruct Hcases as [->|Hcases]; [vm_compute; reflexivity|]).
  subst m. vm_compute. reflexivity.
Qed.

Lemma days_in_month_le_31 y m : days_in_month y m <= 31.
Proof.
  unfold days_in_month. repeat case_bool_decide; try lia.
  destruct (leap_year y); lia.
Qed.

Lemma datetime_date_calendar y m d :
  Strptime.datetime_date y m d =
    if calendar_date y m d then Ok (y, m, d) else Raise ValueError.
Proof.
  unfold Strptime.datetime_date.
  replace ((1 <=? y) && (y <=? 9999) && (1 <=? m) && (m <=? 12) && (1 <=? d)
           && (d <=? Strptime._days_in_month y m)) with (calendar_date y m d);
    [reflexivity|].
  unfold calendar_date. apply eq_true_iff_eq.
  rewrite !andb_true_iff, !Z.leb_le, !bool_decide_eq_true.
  split.
  - intros [[Hy Hm] Hd]. rewrite (days_in_month_calendar y m Hm). lia.
  - intros [[[[[? ?] ?] ?] ?] Hd].
    rewrite (days_in_month_calendar y m) in Hd by lia. lia.
Qed.

(** ** The compiled pattern *)

Lemma tag_year_bind {A} (Y : A) (l : list (string * string)) :
  (l ≫= fun '(m, s2) => Strptime.re_d s2 ≫= fun '(d, s3) => [ (Y, m, d, s3) ])
  = (fun '(m, d, s3) => (Y, m, d, s3))
      <$> (l ≫= fun '(m, s2) => Strptime.re_d s2 ≫= fun '(d, s3) => [ (m, d, s3) ]).
Proof.
  induction l as [|[m s2] l IH]; [reflexivity|].
  rewrite !bind_cons, fmap_app, IH. f_equal.
  induction (Strptime.re_d s2) as [|[d s3] l' IH']; [reflexivity|].
  rewrite !bind_cons, fmap_app, IH'. reflexivity.
Qed.

Lemma format_regex_match_year a b c d r :
  Str.is_digit a = true -> Str.is_digit b = true ->
  Str.is_digit c = true -> Str.is_digit d = true ->
  Strptime.format_regex_match (String a (String b (String c (String d r))))
  = (fun '(m, d', rest) =>
       (String a (String b (String c (String d EmptyString))), m, d', rest))
      <$> month_day_match r.
Proof.
  intros Ha Hb Hc Hd. unfold Strptime.format_regex_match, Strptime.re_Y, month_day_match.
  rewrite Ha, Hb, Hc, Hd. cbn [andb]. rewrite bind_singleton, tag_year_bind.
  now destruct (_ ≫= _).
Qed.

(** What each pattern consumes. *)

Lemma one_length p s x r :
  (x, r) ∈ Strptime.one p s -> Str.len s = (1 + Str.len r)%nat.
Proof.
  unfold Strptime.one. destruct s as [|a s]; [intros H; now apply not_elem_of_nil in H|].
  destruct (p a); [|intros H; now apply not_elem_of_nil in H].
  intros [= -> ->]%list_elem_of_singleton. reflexivity.
Qed.

Lemma two_length p q s x r :
  (x, r) ∈ Strptime.two p q s -> Str.len s = (2 + Str.len r)%nat.
Proof.
  unfold Strptime.two.
  destruct s as [|a [|b s]]; try (intros H; now apply not_elem_of_nil in H).
  destruct (p a && q b); [|intros H; now apply not_elem_of_nil in H].
  intros [= -> ->]%list_elem_of_singleton. reflexivity.
Qed.

Lemma re_Y_length s x r :
  (x, r) ∈ Strptime.re_Y s -> Str.len s = (4 + Str.len r)%nat.
Proof.
  unfold Strptime.re_Y.
  destruct s as [|a [|b [|c [|d s]]]]; try (intros H; now apply not_elem_of_nil in H).
  destruct (_ && _); [|intros H; now apply not_elem_of_nil in H].
  intros [= -> ->]%list_elem_of_singleton. reflexivity.
Qed.

Lemma re_m_length s x r :
  (x, r) ∈ Strptime.re_m s -> (1 + Str.len r <= Str.len s <= 2 + Str.len r)%nat.
Proof.
  unfold Strptime.re_m. rewrite !elem_of_app.
  intros [H|[H|H]];
    [apply two_length in H|apply two_length in H|apply one_length in H]; lia.
Qed.

Lemma re_d_length s x r :
  (x, r) ∈ Strptime.re_d s -> (1 + Str.len r <= Str.len s <= 2 + Str.len r)%nat.
Proof.
  unfold Strptime.re_d. rewrite !elem_of_app.
  intros [H|[H|[H|[H|H]]]];
    [apply two_length in H|apply two_length in H|apply two_length in H
    |apply one_length in H|apply two_length in H]; lia.
Qed.

Lemma format_regex_match_length s Y m d rest :
  Strptime.format_regex_match s = Some (Y, m, d, rest) ->
  (6 + Str.len rest <= Str.len s <= 8 + Str.len rest)%nat.
Proof.
  unfold Strptime.format_regex_match. intros H%head_Some_elem_of.
  apply list_elem_of_bind in H as ([Y' s1] & H & HY).
  apply list_elem_of_bind in H as ([m' s2] & H & Hm).
  apply list_elem_of_bind in H as ([d' s3] & H & Hd).
  apply list_elem_of_singleton in H. injection H as -> -> -> ->.
  apply re_Y_length in HY. apply re_m_length in Hm. apply re_d_length in Hd. lia.
Qed.

Lemma strptime_length s tm :
  Strptime.strptime s = Ok tm -> (6 <= Str.len s <= 8)%nat.
Proof.
  unfold Strptime.strptime.
  destruct (Strptime.format_regex_match s) as [[[[Y m] d] rest]|] eqn:Hfound;
    [|discriminate].
  case_bool_decide as Hrest; [|discriminate]. intros _.
  apply format_regex_match_length in Hfound. subst rest. cbn in Hfound. lia.
Qed.

Lemma between_is_digit lo hi c :
  Str.is_digit lo = true -> Str.is_digit hi = true ->
  Strptime.between lo hi c = true -> Str.is_digit c = true.
Proof.
  unfold Strptime.between, Str.is_digit.
  rewrite !andb_true_iff, !N.leb_le. lia.
Qed.

(** ** C1: the dates *)

Lemma format_date_eight_digits s :
  is_yyyymmdd s = true ->
  format_date (Some s) =
    if calendar_date (num (year_text s)) (num (month_text s)) (num (day_text s))
    then Ok (pretty (num (year_text s)) +:+ "-" +:+ month_text s +:+ "-" +:+ day_text s)
    else Raise ValueError.
Proof.
  unfold is_yyyymmdd. intros [Hlen Hdigits]%andb_prop.
  apply bool_decide_eq_true in Hlen. unfold Str.len in Hlen.
  destruct s as [|a [|b [|c [|d [|m1 [|m2 [|d1 [|d2 [|? ?]]]]]]]]]; try discriminate Hlen.
  cbn [Str.forallb] in Hdigits.
  repeat (let Hc := fresh "Hc" in apply andb_prop in Hdigits as [Hc Hdigits]).
  unfold year_text, month_text, day_text. cbn [Str.take Str.drop].
  set (Y := String a (String b (String c (String d EmptyString)))).
  set (m := String m1 (String m2 EmptyString)).
  set (dd := String d1 (String d2 EmptyString)).
  assert (HY : Strptime.int Y = Ok (num Y)).
  { apply int_num; [discriminate|]. subst Y. cbn [Str.forallb]. now rewrite Hc, Hc0, Hc1, Hc2. }
  assert (Hm : Strptime.int m = Ok (num m)).
  { apply int_num; [discriminate|]. subst m. cbn [Str.forallb]. now rewrite Hc3, Hc4. }
  assert (Hd : Strptime.int dd = Ok (num dd)).
  { apply int_num; [discriminate|]. subst dd. cbn [Str.forallb]. now rewrite Hc5, Hc6. }
  unfold format_date. cbn [nonempty]. unfold Strptime.strptime.
  rewrite format_regex_match_year by assumption.
  pose proof (month_day_checked m1 m2 d1 d2 Hc3 Hc4 Hc5 Hc6) as Hcheck.
  unfold month_day_check in Hcheck. fold m dd in Hcheck.
  destruct (bool_decide (1 <= num m <= 12) && bool_decide (1 <= num dd <= 31)) eqn:Hrange.
  - apply andb_prop in Hcheck as [[Hfound Hmm]%andb_prop Hdd].
    apply bool_decide_eq_true in Hfound, Hmm, Hdd.
    rewrite Hfound. cbn [fmap option_fmap option_map]. rewrite bool_decide_eq_true_2 by reflexivity.
    cbn [negb]. fold Y. rewrite HY, Hm, Hd. cbn [mbind result_bind].
    rewrite datetime_date_calendar. destruct (calendar_date _ _ _); [|reflexivity].
    cbn [mbind result_bind]. unfold Strptime.strftime. cbn [Strptime.tm_year Strptime.tm_mon Strptime.tm_mday].
    now rewrite Hmm, Hdd.
  - assert (Hcal : calendar_date (num Y) (num m) (num dd) = false).
    { unfold calendar_date. apply andb_false_iff in Hrange as [Hr|Hr];
        apply bool_decide_eq_false in Hr.
      - rewrite (bool_decide_eq_false_2 (1 <= num m <= 12)) by assumption.
        now rewrite andb_false_r.
      - rewrite (bool_decide_eq_false_2 (1 <= num dd <= _)); [apply andb_false_r|].
        pose proof (days_in_month_le_31 (num Y) (num m)). lia. }
    rewrite Hcal.
    destruct (month_day_match _) as [[[m' d'] rest]|]; [|reflexivity].
    cbn [fmap option_fmap option_map]. now rewrite Hcheck.
Qed.

(** *** Every text *)

Lemma is_date_char_elem c : is_date_char c = true -> In c date_chars.
Proof. by_cases_on_char c; cbn; tauto. Qed.

Lemma texts_elem t :
  Str.forallb is_date_char t = true -> t ∈ texts (Str.len t).
Proof.
  induction t as [|c t IH]; [intros _; apply list_elem_of_here|].
  cbn [Str.forallb]. intros [Hc Ht]%andb_prop.
  change (texts (Str.len (String c t)))
    with (c' ← date_chars; t' ← texts (Str.len t); [ String c' t' ]).
  apply list_elem_of_bind. exists c. split; [|apply list_elem_of_In, is_date_char_elem, Hc].
  apply list_elem_of_bind. exists t. split; [apply list_elem_of_here | apply IH, Ht].
Qed.

Lemma layout_checked t :
  Str.forallb is_date_char t = true -> (Str.len t <= 4)%nat -> layout_check t = true.
Proof.
  intros Ht Hlen.
  assert (Hall : List.forallb layout_check
            (texts 0 ++ texts 1 ++ texts 2 ++ texts 3 ++ texts 4) = true)
    by (vm_compute; reflexivity).
  rewrite forallb_forall in Hall. apply Hall, list_elem_of_In.
  apply texts_elem in Ht. rewrite !elem_of_app.
  destruct (Str.len t) as [|[|[|[|[|n]]]]]; [tauto..|lia].
Qed.

Lemma forallb_append p a b :
  Str.forallb p (a +:+ b) = Str.forallb p a && Str.forallb p b.
Proof.
  induction a as [|c a IH]; [reflexivity|].
  rewrite append_cons. cbn [Str.forallb]. now rewrite IH, andb_assoc.
Qed.

Lemma len_append a b : Str.len (a +:+ b) = (Str.len a + Str.len b)%nat.
Proof.
  induction a as [|c a IH]; [reflexivity|].
  rewrite append_cons. unfold Str.len in *. cbn [String.length]. now rewrite IH.
Qed.

Lemma take_drop n : forall t, Str.take n t +:+ Str.drop n t = t.
Proof.
  induction n as [|n IH]; intros [|c t]; try reflexivity.
  cbn [Str.take Str.drop]. now rewrite append_cons, IH.
Qed.

Lemma digits_date_chars t :
  Str.forallb Str.is_digit t = true -> Str.forallb is_date_char t = true.
Proof.
  induction t as [|c t IH]; [reflexivity|]. cbn [Str.forallb].
  intros [Hc Ht]%andb_prop. rewrite (IH Ht), andb_true_r.
  unfold is_date_char. now rewrite Hc.
Qed.

Lemma in_range_date_chars lo hi t :
  in_range lo hi t = true -> Str.forallb is_date_char t = true.
Proof. unfold in_range. intros [H _]%andb_prop. now apply digits_date_chars. Qed.

Lemma month_text_ok_chars m :
  month_text_ok m = true -> Str.forallb is_date_char m = true /\ (Str.len m <= 2)%nat.
Proof.
  unfold month_text_ok.
  destruct (Str.len m) as [|[|[|n]]]; try discriminate;
    intros H%in_range_date_chars; split; [assumption | lia | assumption | lia].
Qed.

Lemma day_text_ok_chars d :
  day_text_ok d = true -> Str.forallb is_date_char d = true /\ (Str.len d <= 2)%nat.
Proof.
  unfold day_text_ok. destruct (Str.startswith " " d) eqn:Hsp.
  - intros [Hlen H%in_range_date_chars]%andb_prop. apply bool_decide_eq_true in Hlen.
    split; [|lia]. destruct d as [|c r]; [discriminate Hsp|].
    cbn [Str.startswith] in Hsp. apply bool_decide_eq_true in Hsp. subst c.
    cbn [Str.drop] in H. cbn [Str.forallb]. now rewrite H.
  - destruct (Str.len d) as [|[|[|n]]]; try discriminate;
      intros H%in_range_date_chars; split; [assumption | lia | assumption | lia].
Qed.

Lemma month_day_layout_chars t m d :
  month_day_layout t = Some (m, d) ->
  Str.forallb is_date_char t = true /\ (Str.len t <= 4)%nat.
Proof.
  unfold month_day_layout. cbn [List.find].
  assert (Hsplit : forall n, month_text_ok (Str.take n t) && day_text_ok (Str.drop n t) = true ->
            Str.forallb is_date_char t = true /\ (Str.len t <= 4)%nat).
  { intros n [[Hm Hlm]%month_text_ok_chars [Hd Hld]%day_text_ok_chars]%andb_prop.
    rewrite <- (take_drop n t), forallb_append, len_append, Hm, Hd. split; [reflexivity | lia]. }
  destruct (month_text_ok (Str.take 2 t) && day_text_ok (Str.drop 2 t)) eqn:H2;
    [intros _; exact (Hsplit 2%nat H2)|].
  destruct (month_text_ok (Str.take 1 t) && day_text_ok (Str.drop 1 t)) eqn:H1;
    [intros _; exact (Hsplit 1%nat H1) | discriminate].
Qed.

Lemma one_elem p s x r :
  (forall c, p c = true -> is_date_char c = true) ->
  (x, r) ∈ Strptime.one p s ->
  s = x +:+ r /\ Str.forallb is_date_char x = true.
Proof.
  intros Hp. unfold Strptime.one.
  destruct s as [|a s]; [intros H; now apply not_elem_of_nil in H|].
  destruct (p a) eqn:Ha; [|intros H; now apply not_elem_of_nil in H].
  intros [= -> ->]%list_elem_of_singleton. split; [reflexivity|].
  cbn [Str.forallb]. now rewrite (Hp a Ha).
Qed.

Lemma two_elem p q s x r :
  (forall c, p c = true -> is_date_char c = true) ->
  (forall c, q c = true -> is_date_char c = true) ->
  (x, r) ∈ Strptime.two p q s ->
  s = x +:+ r /\ Str.forallb is_date_char x = true.
Proof.
  intros Hp Hq. unfold Strptime.two.
  destruct s as [|a [|b s]]; try (intros H; now apply not_elem_of_nil in H).
  destruct (p a) eqn:Ha, (q b) eqn:Hb; cbn [andb];
    try (intros H; now apply not_elem_of_nil in H).
  intros [= -> ->]%list_elem_of_singleton. split; [reflexivity|].
  cbn [Str.forallb]. now rewrite (Hp a Ha), (Hq b Hb).
Qed.

Ltac date_char_pattern :=
  let c := fresh "c" in intros c; by_cases_on_char c.

Lemma re_m_elem s m r :
  (m, r) ∈ Strptime.re_m s -> s = m +:+ r /\ Str.forallb is_date_char m = true.
Proof.
  unfold Strptime.re_m. rewrite !elem_of_app.
  intros [H|[H|H]]; revert H;
    first [apply two_elem | apply one_elem]; date_char_pattern.
Qed.

Lemma re_d_elem s d r :
  (d, r) ∈ Strptime.re_d s -> s = d +:+ r /\ Str.forallb is_date_char d = true.
Proof.
  unfold Strptime.re_d. rewrite !elem_of_app.
  intros [H|[H|[H|[H|H]]]]; revert H;
    first [apply two_elem | apply one_elem]; date_char_pattern.
Qed.

Lemma month_day_match_chars t m d :
  month_day_match t = Some (m, d, EmptyString) ->
  Str.forallb is_date_char t = true /\ (Str.len t <= 4)%nat.
Proof.
  unfold month_day_match. intros H%head_Some_elem_of.
  apply list_elem_of_bind in H as ([m' s2] & H & Hm).
  apply list_elem_of_bind in H as ([d' s3] & H & Hd).
  apply list_elem_of_singleton in H. injection H as <- <- <-.
  pose proof (re_m_length _ _ _ Hm) as Hlm. pose proof (re_d_length _ _ _ Hd) as Hld.
  apply re_m_elem in Hm as [-> Hm]. apply re_d_elem in Hd as [-> Hd].
  rewrite append_nil_r in *. rewrite forallb_append, Hm, Hd.
  split; [reflexivity|]. cbn in Hld. lia.
Qed.

(** The pattern of [strptime] and the layout agree on every text. *)
Lemma layout_agrees t :
  match month_day_layout t with
  | Some (m, d) =>
      month_day_match t = Some (m, d, EmptyString)
      /\ Strptime.int m = Ok (text_value m) /\ Strptime.int d = Ok (text_value d)
  | None =>
      match month_day_match t with
      | Some (_, _, rest) => rest <> EmptyString
      | None => True
      end
  end.
Proof.
  destruct (Str.forallb is_date_char t && (Str.len t <=? 4)%nat) eqn:Hchars.
  - apply andb_prop in Hchars as [Ht Hlen]. apply Nat.leb_le in Hlen.
    pose proof (layout_checked t Ht Hlen) as Hcheck. unfold layout_check in Hcheck.
    destruct (month_day_layout t) as [[m d]|].
    + apply andb_prop in Hcheck as [[H1 H2]%andb_prop H3].
      apply bool_decide_eq_true in H1, H2, H3. auto.
    + destruct (month_day_match t) as [[[m d] rest]|]; [|exact I].
      apply negb_true_iff, bool_decide_eq_false in Hcheck. exact Hcheck.
  - assert (Hnot : ~ (Str.forallb is_date_char t = true /\ (Str.len t <= 4)%nat)).
    { intros [Ht Hlen]. apply Nat.leb_le in Hlen. now rewrite Ht, Hlen in Hchars. }
    destruct (month_day_layout t) as [[m d]|] eqn:Hlayout;
      [elim Hnot; eapply month_day_layout_chars, Hlayout|].
    destruct (month_day_match t) as [[[m d] rest]|] eqn:Hmatch; [|exact I].
    intros ->. elim Hnot. eapply month_day_match_chars, Hmatch.
Qed.

Lemma format_regex_match_no_year s :
  (bool_decide (Str.len (Str.take 4 s) = 4%nat)
   && Str.forallb Str.is_digit (Str.take 4 s)) = false ->
  Strptime.format_regex_match s = None.
Proof.
  unfold Strptime.format_regex_match, Strptime.re_Y.
  destruct s as [|a [|b [|c [|d r]]]]; try reflexivity.
  cbn [Str.take Str.forallb Str.len String.length]. rewrite bool_decide_eq_true_2 by reflexivity.
  cbn [andb]. rewrite andb_true_r, !andb_assoc. intros ->. reflexivity.
Qed.

Lemma format_date_reformatted s :
  s <> EmptyString -> format_date (Some s) = reformatted s.
Proof.
  intros Hne. unfold format_date, reformatted, date_layout.
  replace (nonempty (Some s)) with true by (destruct s; [now elim Hne | reflexivity]).
  unfold Strptime.strptime.
  destruct (bool_decide (Str.len (Str.take 4 s) = 4%nat)
            && Str.forallb Str.is_digit (Str.take 4 s)) eqn:Hyear;
    [|now rewrite (format_regex_match_no_year s Hyear)].
  apply andb_prop in Hyear as [Hlen Hdigits]. apply bool_decide_eq_true in Hlen.
  destruct s as [|a [|b [|c [|d t]]]]; try discriminate Hlen.
  cbn [Str.take Str.drop] in *. cbn [Str.forallb] in Hdigits.
  repeat (let Hc := fresh "Hc" in apply andb_prop in Hdigits as [Hc Hdigits]).
  rewrite format_regex_match_year by assumption.
  set (Y := String a (String b (String c (String d EmptyString)))).
  assert (HY : Strptime.int Y = Ok (num Y)).
  { apply int_num; [discriminate|]. subst Y. cbn [Str.forallb]. now rewrite Hc, Hc0, Hc1, Hc2. }
  pose proof (layout_agrees t) as Hagree.
  destruct (month_day_layout t) as [[m dd]|].
  - destruct Hagree as (-> & Hm & Hd). cbn [fmap option_fmap option_map mbind option_bind].
    rewrite bool_decide_eq_true_2 by reflexivity. cbn [negb].
    rewrite HY, Hm, Hd. cbn [mbind result_bind].
    rewrite datetime_date_calendar. destruct (calendar_date _ _ _); reflexivity.
  - cbn [mbind option_bind].
    destruct (month_day_match t) as [[[m dd] rest]|]; [|reflexivity].
    cbn [fmap option_fmap option_map]. now rewrite bool_decide_eq_false_2.
Qed.

(** C1, as stated, fails on the seven-digit text ["2023011"]: it is not
    empty and not an eight-digit date, and [format_date] does not raise on
    it (the month and day patterns of [strptime] accept a single digit, so
    it is read as 1 January 2023). *)
Lemma seven_digit_date_is_accepted : ~ every_malformed_date_raises.
Proof.
  intros H. specialize (H "2023011").
  assert (Hraise : format_date (Some "2023011") = Raise ValueError).
  { apply H; [discriminate|]. intros [Hwf _]. vm_compute in Hwf. discriminate Hwf. }
  vm_compute in Hraise. discriminate Hraise.
Qed.

(** C1, amended. [format_date] maps ["20230115"] to ["2023-01-15"] and the
    empty string and [None] to the empty string; whenever it fails it
    raises [ValueError].  On a text that is not empty it returns exactly
    when the text is four digits of a year followed by a month and a day
    that name a day of the calendar (years 1 to 9999), the month written
    with two digits (01 to 12) or one (1 to 9), the day with two digits
    (01 to 31), one digit (1 to 9) or a space and one digit, and the month
    taking two characters whenever that leaves a month and a day; it then
    returns the year without leading zeros and the month and the day with
    two digits each, joined by hyphens.  On every other text that is not
    empty it raises [ValueError].  So on a text of eight digits it returns
    the year, month and day joined by hyphens when the digits name a day
    of the calendar, with the four digits of the year kept as they are
    unless the year starts with 0, and raises otherwise; it raises on
    every non-empty text shorter than six or longer than eight characters;
    and texts of six to eight characters with a one-digit month or day are
    accepted, not rejected: ["2023011"] gives ["2023-01-01"], ["202311"]
    gives ["2023-01-01"], ["2023123"] gives ["2023-12-03"], ["2023110"]
    gives ["2023-01-10"] and ["202301 5"] gives ["2023-01-05"], while
    ["2023100"], ["2023 115"] and ["20230230"] raise. *)
Theorem format_date_reformats_or_raises :
  format_date (Some "20230115") = Ok "2023-01-15"
  /\ format_date (Some "") = Ok ""
  /\ format_date None = Ok ""
  /\ (forall dt e, format_date dt = Raise e -> e = ValueError)
  /\ (forall s, s <> "" -> format_date (Some s) = reformatted s)
  /\ (forall s, is_yyyymmdd s = true ->
        (well_formed_date s ->
           format_date (Some s)
           = Ok (pretty (num (year_text s)) +:+ "-" +:+ month_text s +:+ "-" +:+ day_text s))
        /\ (well_formed_date s -> Str.take 1 s <> "0" ->
           format_date (Some s)
           = Ok (year_text s +:+ "-" +:+ month_text s +:+ "-" +:+ day_text s))
        /\ (~ well_formed_date s -> format_date (Some s) = Raise ValueError))
  /\ (forall s, s <> "" -> (Str.len s < 6 \/ 8 < Str.len s)%nat ->
        format_date (Some s) = Raise ValueError)
  /\ format_date (Some "2023011") = Ok "2023-01-01"
  /\ format_date (Some "202311") = Ok "2023-01-01"
  /\ format_date (Some "2023123") = Ok "2023-12-03"
  /\ format_date (Some "2023110") = Ok "2023-01-10"
  /\ format_date (Some "202301 5") = Ok "2023-01-05"
  /\ format_date (Some "09990101") = Ok "999-01-01"
  /\ format_date (Some "2023100") = Raise ValueError
  /\ format_date (Some "2023 115") = Raise ValueError
  /\ format_date (Some "20230230") = Raise ValueError
  /\ date_layout "2023110" = Some ("2023", "1", "10")
  /\ date_layout "2023123" = Some ("2023", "12", "3")
  /\ date_layout "202301 5" = Some ("2023", "01", " 5")
  /\ date_layout "2023100" = None.
Proof.
  split; [vm_compute; reflexivity|]. split; [reflexivity|]. split; [reflexivity|].
  split; [exact format_date_raises|]. split; [exact format_date_reformatted|].
  split; [|split; [|repeat split; vm_compute; reflexivity]].
  - intros s Hs. pose proof (format_date_eight_digits s Hs) as Heq.
    unfold well_formed_date. split; [|split].
    + intros [_ Hcal]. now rewrite Hcal in Heq.
    + intros [_ Hcal] Hzero. rewrite Hcal in Heq. rewrite Heq. do 2 f_equal.
      unfold is_yyyymmdd in Hs. apply andb_prop in Hs as [Hlen Hdigits].
      apply bool_decide_eq_true in Hlen. unfold Str.len in Hlen.
      destruct s as [|a [|b [|c [|d r]]]]; try discriminate Hlen.
      cbn [Str.forallb] in Hdigits.
      repeat (let Hc := fresh "Hc" in apply andb_prop in Hdigits as [Hc Hdigits]).
      pose proof (year_checked a b c d Hc Hc0 Hc1 Hc2) as Hyear.
      unfold year_check in Hyear. apply orb_prop in Hyear as [Ha|Hyear].
      * apply bool_decide_eq_true in Ha. subst a. now elim Hzero.
      * apply bool_decide_eq_true in Hyear. exact Hyear.
    + intros Hnot. rewrite Heq. destruct (calendar_date _ _ _); [|reflexivity].
      elim Hnot. auto.
  - intros s Hne Hlen. destruct (format_date (Some s)) as [out|e] eqn:Hout;
      [|now rewrite (format_date_raises _ _ Hout)].
    exfalso. unfold format_date in Hout. destruct s as [|c s]; [now elim Hne|].
    cbn [nonempty] in Hout.
    destruct (Strptime.strptime (String c s)) as [tm|e] eqn:Htm; [|discriminate Hout].
    apply strptime_length in Htm. lia.
Qed.

(** * Further properties *)

(** ** X2: header tokens that collide *)

(** X2. When two columns of a header (the last column apart) are tidied to
    the same field name, reading the member raises [ValueError] and yields
    no record. *)
Theorem colliding_header_tokens_raise
    (database : gmap string (list (list string))) (file : string)
    (first : list string) (reader : list (list string)) (i j : nat) (a b : string) :
  database !! file = Some (first :: reader) ->
  i <> j ->
  removelast first !! i = Some a ->
  removelast first !! j = Some b ->
  _tidy_header a = _tidy_header b ->
  read_file database file = Throw ValueError.
Proof.
  intros Hfile Hij Ha Hb Hab. unfold read_file. rewrite Hfile, namedtuple_row.
  rewrite decide_False; [reflexivity|]. intros [_ Hnd].
  apply Hij. eapply NoDup_lookup; [exact Hnd| |].
  - rewrite list_lookup_fmap, Ha. reflexivity.
  - rewrite list_lookup_fmap, Hb. cbn. now rewrite Hab.
Qed.

Lemma colliding_header_tokens_raise_witness :
  read_file colliding_header_db "MASTER.txt" = Throw ValueError.
Proof.
  apply (colliding_header_tokens_raise colliding_header_db "MASTER.txt"
           [ "N-NUMBER"; "ZIP CODE"; "ZIP-CODE"; "" ] [ [ "N1"; "89501"; "89501"; "" ] ]
           1 2 "ZIP CODE" "ZIP-CODE").
  - vm_compute. reflexivity.
  - discriminate.
  - reflexivity.
  - reflexivity.
  - vm_compute. reflexivity.
Defined.

(** ** Stripping twice *)

Lemma rstrip_rstrip s : Str.rstrip (Str.rstrip s) = Str.rstrip s.
Proof.
  induction s as [|c s IH]; [reflexivity|]. rewrite rstrip_cons.
  destruct (Str.rstrip s) as [|d t] eqn:Hr.
  - destruct (Str.is_space c) eqn:Hc; [reflexivity|]. rewrite rstrip_cons. cbn [Str.rstrip]. now rewrite Hc.
  - rewrite rstrip_cons, IH. reflexivity.
Qed.

Lemma lstrip_rstrip_lstrip s : Str.lstrip (Str.rstrip (Str.lstrip s)) = Str.rstrip (Str.lstrip s).
Proof.
  induction s as [|c s IH]; [reflexivity|]. cbn [Str.lstrip].
  destruct (Str.is_space c) eqn:Hc; [exact IH|].
  rewrite rstrip_cons. destruct (Str.rstrip s); rewrite ?Hc; cbn [Str.lstrip]; now rewrite Hc.
Qed.

Lemma strip_strip s : Str.strip (Str.strip s) = Str.strip s.
Proof. unfold Str.strip. now rewrite lstrip_rstrip_lstrip, rstrip_rstrip. Qed.

(** ** The records of a member *)

Lemma yielded_record database file rec :
  rec ∈ yielded (read_file database file) ->
  exists first reader r,
    database !! file = Some (first :: reader)
    /\ valid_header (map _tidy_header (removelast first))
    /\ r ∈ reader
    /\ length (removelast r) = length (removelast first)
    /\ rec = Row (map _tidy_header (removelast first)) (map Str.strip (removelast r)).
Proof.
  unfold read_file. destruct (database !! file) as [[|first reader]|];
    try (intros H; now apply not_elem_of_nil in H).
  rewrite namedtuple_row. destruct (decide _) as [Hvalid|];
    [|intros H; now apply not_elem_of_nil in H].
  destruct (read_rows_spec (map _tidy_header (removelast first)) reader) as [_ ->].
  intros (r & Hr & Hsome)%list_elem_of_omap.
  destruct (decide _) as [Hlen|]; [|discriminate Hsome]. injection Hsome as <-.
  rewrite length_map in Hlen. exists first, reader, r. auto.
Qed.

Lemma field_value_by_position names vals name v :
  NoDup names -> length vals = length names ->
  field_value names vals name = Some v
  <-> exists i, names !! i = Some name /\ vals !! i = Some v.
Proof.
  revert vals. induction names as [|n names IH]; intros vals Hnd Hlen.
  - cbn. split; [discriminate | intros (i & Hi & _); discriminate Hi].
  - destruct vals as [|x vals]; [discriminate Hlen|].
    apply NoDup_cons in Hnd as [Hfresh Hnd]. injection Hlen as Hlen.
    cbn [field_value]. case_bool_decide as Heq.
    + subst n. split.
      * intros [= ->]. exists 0%nat. auto.
      * intros ([|i] & Hi & Hv); [now injection Hv as ->|].
        cbn in Hi. elim Hfresh. eapply list_elem_of_lookup_2, Hi.
    + rewrite (IH vals Hnd Hlen). split.
      * intros (i & Hi & Hv). exists (S i). auto.
      * intros ([|i] & Hi & Hv); [cbn in Hi; congruence|]. exists i. auto.
Qed.

Lemma field_value_None names vals name :
  length vals = length names ->
  field_value names vals name = None <-> name ∉ names.
Proof.
  revert vals. induction names as [|n names IH]; intros vals Hlen.
  - cbn. split; [intros _; apply not_elem_of_nil | reflexivity].
  - destruct vals as [|x vals]; [discriminate Hlen|]. injection Hlen as Hlen.
    cbn [field_value]. rewrite not_elem_of_cons. case_bool_decide as Heq.
    + split; [discriminate | intros [Hne _]; congruence].
    + rewrite (IH vals Hlen). split; [auto | intros [_ ?]; assumption].
Qed.

(** ** X3: the shape of a record *)

(** X3. Every record that [read_file] yields carries the tidied header of
    its member as its field names; these names are distinct identifiers
    that [namedtuple] accepts; the record has one value per field name;
    and no value has whitespace left at either end. *)
Theorem read_file_records_well_formed
    (database : gmap string (list (list string))) (file : string) (rec : row) :
  rec ∈ yielded (read_file database file) ->
  (exists first reader,
     database !! file = Some (first :: reader)
     /\ _fields rec = map _tidy_header (removelast first))
  /\ valid_header (_fields rec)
  /\ length (values rec) = length (_fields rec)
  /\ Forall (fun v => Str.strip v = v) (values rec).
Proof.
  intros (first & reader & r & Hfile & Hvalid & _ & Hlen & ->)%yielded_record.
  cbn [_fields values]. split; [eauto|]. split; [exact Hvalid|].
  split; [now rewrite !length_map|].
  apply Forall_forall. intros v (x & -> & _)%list_elem_of_fmap. apply strip_strip.
Qed.

Lemma read_file_records_well_formed_witness :
  length (values (record sample_db "MASTER.txt" 0)) = 16%nat
  /\ length (_fields (record sample_db "MASTER.txt" 0)) = 16%nat.
Proof.
  destruct (read_file_records_well_formed sample_db "MASTER.txt"
              (record sample_db "MASTER.txt" 0)) as (_ & _ & Hlen & _).
  - vm_compute. apply list_elem_of_here.
  - rewrite Hlen. split; vm_compute; reflexivity.
Defined.

Lemma yielded_getattr_absent database file rec name :
  rec ∈ yielded (read_file database file) ->
  getattr rec name = Raise AttributeError <-> name ∉ _fields rec.
Proof.
  intros (first & reader & r & _ & _ & _ & Hlen & ->)%yielded_record.
  unfold getattr. cbn [_fields values].
  rewrite <- (field_value_None _ (map Str.strip (removelast r)) name)
    by now rewrite !length_map.
  destruct (field_value _ _ _); split; congruence.
Qed.

(** ** X4: attributes by position *)

(** X4. Take a record that [read_file] yields and a name that the tuple
    class does not define by itself: a [name] other than [count] and
    [index] that does not start with an underscore.  Reading the attribute
    [name] returns the value that stands in the row at the position where
    [name] stands in the header, and fails with [AttributeError] exactly
    when [name] is not a field name of the member. *)
Theorem record_attributes_by_position
    (database : gmap string (list (list string))) (file : string)
    (rec : row) (name : string) :
  rec ∈ yielded (read_file database file) ->
  name <> "count" -> name <> "index" -> Str.startswith "_" name = false ->
  (forall v, getattr rec name = Ok v
             <-> exists i, _fields rec !! i = Some name /\ values rec !! i = Some v)
  /\ (getattr rec name = Raise AttributeError <-> name ∉ _fields rec)
  /\ (forall e, getattr rec name = Raise e -> e = AttributeError).
Proof.
  intros (first & reader & r & _ & [_ Hnd] & _ & Hlen & ->)%yielded_record _ _ _.
  cbn [_fields values].
  assert (Hlen' : length (map Str.strip (removelast r))
                  = length (map _tidy_header (removelast first)))
    by now rewrite !length_map.
  unfold getattr. cbn [_fields values]. split; [|split].
  - intros v. rewrite <- (field_value_by_position _ _ name v Hnd Hlen').
    destruct (field_value _ _ _); split; congruence.
  - rewrite <- (field_value_None _ _ name Hlen').
    destruct (field_value _ _ _); split; congruence.
  - intros e. destruct (field_value _ _ _); congruence.
Qed.

Lemma record_attributes_by_position_witness :
  getattr (record sample_db "MASTER.txt" 0) "zip_code" = Ok "895011234"
  /\ getattr (record sample_db "MASTER.txt" 0) "zip" = Raise AttributeError.
Proof.
  destruct (record_attributes_by_position sample_db "MASTER.txt"
              (record sample_db "MASTER.txt" 0) "zip_code") as (Hpos & _ & _);
    [vm_compute; apply list_elem_of_here | discriminate | discriminate | reflexivity |].
  destruct (record_attributes_by_position sample_db "MASTER.txt"
              (record sample_db "MASTER.txt" 0) "zip") as (_ & Habsent & _);
    [vm_compute; apply list_elem_of_here | discriminate | discriminate | reflexivity |].
  split.
  - apply Hpos. exists 6%nat. split; vm_compute; reflexivity.
  - apply Habsent. apply (bool_decide_unpack _). vm_compute. exact I.
Defined.

(** ** The loops that write *)

Lemma write_rows_written body g f :
  exists rows,
    written (write_rows body g f) = f ++ rows
    /\ rows `prefix_of` omap (row_of body) (yielded g)
    /\ (raised (write_rows body g f) = None -> rows = omap (row_of body) (yielded g)).
Proof.
  revert f. induction g as [ac rest IH| |e]; intros f; cbn [write_rows yielded].
  - cbn [omap list_omap].
    destruct (body ac) as [[cells|]|e] eqn:Hac.
    + assert (Hrow : row_of body ac = Some cells) by (unfold row_of; now rewrite Hac).
      rewrite Hrow. destruct (IH (f ++ [cells])) as (rows & Hw & Hp & Hr).
      exists (cells :: rows). rewrite Hw, <- app_assoc. split; [reflexivity|].
      split; [now apply prefix_cons | intros Hnone; now rewrite (Hr Hnone)].
    + assert (Hrow : row_of body ac = None) by (unfold row_of; now rewrite Hac).
      rewrite Hrow. apply IH.
    + exists []. cbn [written raised]. rewrite app_nil_r. split; [reflexivity|].
      split; [apply prefix_nil | discriminate].
  - exists []. cbn. rewrite app_nil_r. split; [reflexivity|]. split; [apply prefix_nil | reflexivity].
  - exists []. cbn. rewrite app_nil_r. split; [reflexivity|]. split; [apply prefix_nil | discriminate].
Qed.

Lemma write_rows_Forall (P : list string -> Prop) body g f :
  (forall ac cells, body ac = Ok (Some cells) -> P cells) ->
  Forall P f -> Forall P (written (write_rows body g f)).
Proof.
  intros Hbody. revert f. induction g as [ac rest IH| |e]; intros f Hf; cbn [write_rows];
    [|exact Hf|exact Hf].
  destruct (body ac) as [[cells|]|e] eqn:Hac; [|now apply IH|exact Hf].
  apply IH, Forall_app. split; [exact Hf|]. constructor; [|constructor]. eapply Hbody, Hac.
Qed.

Lemma write_rows_thrown body g f e :
  thrown g = Some e -> is_Some (raised (write_rows body g f)).
Proof.
  revert f. induction g as [ac rest IH| |e']; intros f; cbn [thrown write_rows];
    [|discriminate|intros _; cbn; eauto].
  intros Hthrown. destruct (body ac) as [[cells|]|e'']; [now apply IH|now apply IH|cbn; eauto].
Qed.

Lemma build_mfr_mdls_thrown g acc e :
  thrown g = Some e -> exists e', build_mfr_mdls g acc = Raise e'.
Proof.
  revert acc. induction g as [mm rest IH| |e']; intros acc; cbn [thrown build_mfr_mdls];
    [|discriminate|intros _; eauto].
  intros Hthrown.
  destruct (getattr mm "type_acft") as [ta|]; cbn [mbind result_bind]; [|eauto].
  destruct (getattr mm "type_eng") as [te|]; cbn [mbind result_bind]; [|eauto].
  destruct (is_drone ta te); [|now apply IH].
  destruct (getattr mm "code") as [c|]; cbn [mbind result_bind]; [now apply IH|eauto].
Qed.

Lemma master_row_cells mfr_mdls ac cells :
  master_row mfr_mdls ac = Ok (Some cells) ->
  is_drone (field ac "type_aircraft") (field ac "type_engine") = true
  /\ exists mfr_mdl,
       mfr_mdls !! field ac "mfr_mdl_code" = Some mfr_mdl
       /\ master_cells mfr_mdl ac = Ok cells.
Proof.
  unfold master_row. intros H.
  apply bind_Ok in H as (ta & [_ ->]%getattr_Ok_field & H). cbv beta in H.
  apply bind_Ok in H as (te & [_ ->]%getattr_Ok_field & H). cbv beta in H.
  destruct (is_drone _ _); [|discriminate H]. cbn [negb] in H.
  apply bind_Ok in H as (key & [_ ->]%getattr_Ok_field & H). cbv beta in H.
  destruct (mfr_mdls !! _) as [mm|]; [|discriminate H].
  destruct (truthy mm); [|discriminate H].
  apply bind_Ok in H as (c & Hc & [= ->]). split; [reflexivity|]. eauto.
Qed.

Lemma dereg_row_cells mfr_mdls ac cells :
  dereg_row mfr_mdls ac = Ok (Some cells) ->
  exists mfr_mdl,
    mfr_mdls !! field ac "mfr_mdl_code" = Some mfr_mdl
    /\ dereg_cells mfr_mdl ac = Ok cells.
Proof.
  unfold dereg_row. intros H.
  apply bind_Ok in H as (key & [_ ->]%getattr_Ok_field & H). cbv beta in H.
  destruct (mfr_mdls !! _) as [mm|]; [|discriminate H].
  destruct (truthy mm); [|discriminate H].
  apply bind_Ok in H as (c & Hc & [= ->]). eauto.
Qed.

(** ** X5: the order of the output *)

(** X5. Once the lookup is built, the output is the header line, then rows
    of the active table, then rows of the deregistered table, each group in
    the order of its table and without any row dropped in between: the
    rows written for a table are a prefix of the rows its records give.  A
    deregistered row is written only after all active rows, and a run that
    ends without an exception has written all rows of both tables. *)
Theorem output_in_table_order
    (database : gmap string (list (list string))) (mfr_mdls : gmap string row) :
  build_mfr_mdls (read_file database "ACFTREF.txt") ∅ = Ok mfr_mdls ->
  let active_rows :=
    omap (row_of (master_row mfr_mdls)) (yielded (read_file database "MASTER.txt")) in
  let dereg_rows :=
    omap (row_of (dereg_row mfr_mdls)) (yielded (read_file database "DEREG.txt")) in
  exists active dereg,
    written (parse_drone_data database) = DRONE_DATA_HEADERS :: active ++ dereg
    /\ active `prefix_of` active_rows
    /\ dereg `prefix_of` dereg_rows
    /\ (dereg <> [] -> active = active_rows)
    /\ (raised (parse_drone_data database) = None ->
        active = active_rows /\ dereg = dereg_rows).
Proof.
  intros Hbuild active_rows dereg_rows. subst active_rows dereg_rows.
  unfold parse_drone_data. rewrite Hbuild.
  destruct (write_rows_written (master_row mfr_mdls)
              (read_file database "MASTER.txt") [DRONE_DATA_HEADERS])
    as (active & Hwa & Hpa & Hra).
  destruct (write_rows (master_row mfr_mdls) _ _) as [f [e|]] eqn:Hmaster.
  - exists active, []. cbn [written raised] in *. rewrite app_nil_r.
    split; [exact Hwa|]. split; [exact Hpa|]. split; [apply prefix_nil|].
    split; [congruence | discriminate].
  - cbn [written raised] in *. specialize (Hra eq_refl). subst f.
    destruct (write_rows_written (dereg_row mfr_mdls)
                (read_file database "DEREG.txt") ([DRONE_DATA_HEADERS] ++ active))
      as (dereg & Hwd & Hpd & Hrd).
    exists active, dereg. rewrite Hwd. split; [reflexivity|].
    split; [exact Hpa|]. split; [exact Hpd|].
    split; [intros _; exact Hra | intros Hnone; split; [exact Hra | exact (Hrd Hnone)]].
Qed.

Lemma output_in_table_order_witness :
  length (written (parse_drone_data sample_db)) = 3%nat.
Proof.
  destruct (output_in_table_order sample_db (mfr_mdls_of sample_db))
    as (active & dereg & Hw & _ & _ & _ & Hall).
  - vm_compute. reflexivity.
  - destruct Hall as [-> ->]; [vm_compute; reflexivity|].
    rewrite Hw. vm_compute. reflexivity.
Defined.

(** ** X6: the shape of the output *)

(** X6. Whatever the archive holds and however the run ends, every line
    written has eighteen fields.  Nothing at all is written exactly when
    building the lookup raises, and that exception is then the one the run
    ends with; otherwise the first line is the header. *)
Theorem output_is_rectangular (database : gmap string (list (list string))) :
  Forall (fun line => length line = 18%nat) (written (parse_drone_data database))
  /\ (written (parse_drone_data database) = []
      <-> exists e, build_mfr_mdls (read_file database "ACFTREF.txt") ∅ = Raise e)
  /\ (forall e, build_mfr_mdls (read_file database "ACFTREF.txt") ∅ = Raise e ->
        raised (parse_drone_data database) = Some e)
  /\ (written (parse_drone_data database) <> [] ->
        head (written (parse_drone_data database)) = Some DRONE_DATA_HEADERS).
Proof.
  unfold parse_drone_data.
  destruct (build_mfr_mdls (read_file database "ACFTREF.txt") ∅) as [m|e] eqn:Hbuild.
  2:{ cbn. split; [constructor|]. split; [split; eauto|]. split; [now intros e' [= ->]|].
      intros H. now elim H. }
  assert (Hmaster18 : forall ac cells, master_row m ac = Ok (Some cells) -> length cells = 18%nat).
  { intros ac cells (_ & mm & _ & Hc)%master_row_cells.
    now apply master_cells_Ok in Hc as (? & ? & ? & _ & _ & _ & ->). }
  assert (Hdereg18 : forall ac cells, dereg_row m ac = Ok (Some cells) -> length cells = 18%nat).
  { intros ac cells (mm & _ & Hc)%dereg_row_cells.
    now apply dereg_cells_Ok in Hc as (? & ? & ? & ? & _ & _ & _ & _ & ->). }
  pose proof (write_rows_Forall (fun line => length line = 18%nat) (master_row m)
                (read_file database "MASTER.txt") [DRONE_DATA_HEADERS] Hmaster18) as H18.
  destruct (write_rows_written (master_row m)
              (read_file database "MASTER.txt") [DRONE_DATA_HEADERS]) as (active & Hwa & _ & _).
  destruct (write_rows (master_row m) _ _) as [f [e|]] eqn:Hmaster; cbn [written] in *.
  - subst f. split; [apply H18; repeat constructor|].
    split; [split; [discriminate | intros [? [=]]]|]. split; [discriminate|]. reflexivity.
  - destruct (write_rows_written (dereg_row m) (read_file database "DEREG.txt") f)
      as (dereg & Hwd & _ & _).
    split; [apply write_rows_Forall; [exact Hdereg18 | apply H18; repeat constructor]|].
    rewrite Hwd, Hwa. cbn.
    split; [split; [discriminate | intros [? [=]]]|]. split; [discriminate|]. reflexivity.
Qed.

(** ** X7: a member that cannot be read *)

(** X7. When reading one of the three members raises (the member is
    missing, has no line, or has a header that [namedtuple] rejects), the
    run ends with an exception; when that member is the model-reference
    table the exception is that one and nothing is written. *)
Theorem unreadable_member_aborts
    (database : gmap string (list (list string))) (file : string) (e : exn) :
  file ∈ members ->
  thrown (read_file database file) = Some e ->
  is_Some (raised (parse_drone_data database))
  /\ (file = "ACFTREF.txt" -> parse_drone_data database = Outcome [] (Some e)).
Proof.
  intros Hfile Hthrown. split.
  - unfold parse_drone_data.
    destruct (build_mfr_mdls (read_file database "ACFTREF.txt") ∅) as [m|e0] eqn:Hbuild;
      [|cbn; eauto].
    destruct (write_rows (master_row m) _ _) as [f [e1|]] eqn:Hmaster; [cbn; eauto|].
    unfold members in Hfile.
    apply elem_of_cons in Hfile as [->|Hfile].
    { destruct (build_mfr_mdls_thrown _ ∅ _ Hthrown) as [e' He']. congruence. }
    apply elem_of_cons in Hfile as [->|Hfile].
    { pose proof (write_rows_thrown (master_row m) _ [DRONE_DATA_HEADERS] _ Hthrown) as Hr.
      rewrite Hmaster in Hr. destruct Hr as [? [=]]. }
    apply list_elem_of_singleton in Hfile as ->.
    eapply write_rows_thrown, Hthrown.
  - intros ->. unfold parse_drone_data.
    now rewrite (read_file_thrown _ _ _ Hthrown).
Qed.

Lemma unreadable_member_aborts_witness :
  parse_drone_data colliding_header_db = Outcome [] (Some KeyError).
Proof.
  apply (unreadable_member_aborts colliding_header_db "ACFTREF.txt" KeyError).
  - apply list_elem_of_here.
  - vm_compute. reflexivity.
  - reflexivity.
Defined.

(** ** X8: what a written row is joined with *)

(** X8. A row written for a record of either registration table carries
    the record's model code in its fifth field, and in the next four the
    manufacturer, model, engine count and weight class of the entry the
    lookup holds under that code; that entry was read from the
    model-reference table, satisfies the drone predicate and has that
    code. *)
Theorem written_rows_join_the_lookup
    (g : generator row) (mfr_mdls : gmap string row) (ac : row) (cells : list string) :
  build_mfr_mdls g ∅ = Ok mfr_mdls ->
  master_row mfr_mdls ac = Ok (Some cells) \/ dereg_row mfr_mdls ac = Ok (Some cells) ->
  exists mfr_mdl,
    mfr_mdls !! field ac "mfr_mdl_code" = Some mfr_mdl
    /\ mfr_mdl ∈ yielded g
    /\ is_drone (field mfr_mdl "type_acft") (field mfr_mdl "type_eng") = true
    /\ field mfr_mdl "code" = field ac "mfr_mdl_code"
    /\ cells !! 4%nat = Some (field ac "mfr_mdl_code")
    /\ cells !! 5%nat = Some (field mfr_mdl "mfr")
    /\ cells !! 6%nat = Some (field mfr_mdl "model")
    /\ cells !! 7%nat = Some (field mfr_mdl "no_eng")
    /\ cells !! 8%nat = Some (field mfr_mdl "ac_weight").
Proof.
  intros Hbuild Hrow.
  assert (Hcells : exists mm, mfr_mdls !! field ac "mfr_mdl_code" = Some mm
            /\ cells !! 4%nat = Some (field ac "mfr_mdl_code")
            /\ cells !! 5%nat = Some (field mm "mfr")
            /\ cells !! 6%nat = Some (field mm "model")
            /\ cells !! 7%nat = Some (field mm "no_eng")
            /\ cells !! 8%nat = Some (field mm "ac_weight")).
  { destruct Hrow as [(_ & mm & Hmm & Hc)%master_row_cells|(mm & Hmm & Hc)%dereg_row_cells];
      exists mm; (split; [exact Hmm|]).
    - apply master_cells_Ok in Hc as (? & ? & ? & _ & _ & _ & ->). repeat split.
    - apply dereg_cells_Ok in Hc as (? & ? & ? & ? & _ & _ & _ & _ & ->). repeat split. }
  destruct Hcells as (mm & Hmm & H4 & H5 & H6 & H7 & H8).
  destruct (build_mfr_mdls_elem _ _ _ _ Hbuild Hmm) as (Hin & Hdrone & Hcode).
  exists mm. repeat split; assumption.
Qed.

Lemma written_rows_join_the_lookup_witness :
  exists mfr_mdl,
    mfr_mdls_of sample_db !! "A1" = Some mfr_mdl /\ field mfr_mdl "model" = "Falcon 2".
Proof.
  destruct (written_rows_join_the_lookup (read_file sample_db "ACFTREF.txt")
              (mfr_mdls_of sample_db) (record sample_db "DEREG.txt" 0)
              [ "N500"; "S5"; "50000005"; "A00005"; "A1"; "Acme"; "Falcon 2"; "4";
                "CLASS 1"; "Non Citizen Corporation"; "RENO"; "NV"; "89501"; "Valid";
                "2020-01-01"; ""; "2021-12-31"; "2022-01-01" ])
    as (mm & Hmm & _ & _ & _ & _ & _ & H6 & _).
  - vm_compute. reflexivity.
  - right. vm_compute. reflexivity.
  - exists mm. split; [exact Hmm|]. cbn in H6. congruence.
Defined.

(** ** X9: the columns a row depends on *)

Ltac same_attrs H :=
  repeat match goal with
         | |- context [getattr ?r ?n] =>
             lazymatch goal with
             | H' : forall n', n' ∈ _ -> getattr r n' = getattr ?r' n' |- _ =>
                 rewrite (H' n) by (apply (bool_decide_unpack _); vm_compute; exact I)
             end
         end.

(** X9. What is written for a record depends on the record only through
    the columns the loop reads: two records that agree on those columns
    give the same row, the same skip or the same exception.  The
    deregistered loop reads no type column, so a deregistration is written
    or skipped whatever type of aircraft its own record states. *)
Theorem rows_depend_on_the_columns_read (mfr_mdls : gmap string row) :
  (forall ac ac',
     (forall name, name ∈ MASTER_columns -> getattr ac name = getattr ac' name) ->
     master_row mfr_mdls ac = master_row mfr_mdls ac')
  /\ (forall ac ac',
     (forall name, name ∈ DEREG_columns -> getattr ac name = getattr ac' name) ->
     dereg_row mfr_mdls ac = dereg_row mfr_mdls ac')
  /\ (forall ac type_aircraft type_engine,
     length (values ac) = length (_fields ac) ->
     dereg_row mfr_mdls (with_type_columns ac type_aircraft type_engine)
     = dereg_row mfr_mdls ac).
Proof.
  assert (Hdereg : forall ac ac',
     (forall name, name ∈ DEREG_columns -> getattr ac name = getattr ac' name) ->
     dereg_row mfr_mdls ac = dereg_row mfr_mdls ac').
  { intros ac ac' H. unfold dereg_row, dereg_cells. same_attrs H. reflexivity. }
  split; [|split; [exact Hdereg|]].
  - intros ac ac' H. unfold master_row, master_cells. same_attrs H. reflexivity.
  - intros ac ta te Hlen. apply Hdereg. intros name Hname.
    unfold getattr, with_type_columns. cbn [_fields values].
    assert (Hne : name <> "type_aircraft" /\ name <> "type_engine").
    { split; intros ->; revert Hname; apply (bool_decide_unpack _); vm_compute; exact I. }
    destruct Hne as [Hne1 Hne2]. f_equal.
    clear Hname. revert Hlen. generalize (values ac). generalize (_fields ac).
    induction l as [|n ns IH]; intros [|v vs] Hlen; try discriminate Hlen.
    + cbn. rewrite !bool_decide_eq_false_2 by congruence. reflexivity.
    + cbn [app field_value]. case_bool_decide; [reflexivity|]. apply IH. now injection Hlen.
Qed.

(** ** X10: the members a run reads *)

(** X10. The report depends on the archive only through the three members
    [ACFTREF.txt], [MASTER.txt] and [DEREG.txt]: adding, replacing or
    removing any other member changes neither the rows written nor the way
    the run ends. *)
Theorem other_members_are_not_read
    (database : gmap string (list (list string))) (name : string)
    (content : list (list string)) :
  name ∉ members ->
  parse_drone_data (<[ name := content ]> database) = parse_drone_data database
  /\ parse_drone_data (delete name database) = parse_drone_data database.
Proof.
  intros Hname.
  assert (Hne : forall file, file ∈ members -> name <> file) by (intros file Hin ->; contradiction).
  assert (Hins : forall file, file ∈ members ->
            read_file (<[ name := content ]> database) file = read_file database file).
  { intros file Hin. unfold read_file. now rewrite lookup_insert_ne by auto. }
  assert (Hdel : forall file, file ∈ members ->
            read_file (delete name database) file = read_file database file).
  { intros file Hin. unfold read_file. now rewrite lookup_delete_ne by auto. }
  assert (H1 : "ACFTREF.txt" ∈ members) by apply list_elem_of_here.
  assert (H2 : "MASTER.txt" ∈ members) by apply list_elem_of_further, list_elem_of_here.
  assert (H3 : "DEREG.txt" ∈ members)
    by apply list_elem_of_further, list_elem_of_further, list_elem_of_here.
  unfold parse_drone_data. now rewrite !Hins, !Hdel by assumption.
Qed.

Lemma other_members_are_not_read_witness :
  parse_drone_data (<[ "ENGINE.txt" := [] ]> sample_db) = parse_drone_data sample_db.
Proof.
  apply (other_members_are_not_read sample_db "ENGINE.txt" []).
  apply (bool_decide_unpack _). vm_compute. exact I.
Defined.

(** ** X11: formatting a ZIP code twice *)

(** X11. [format_zip] never returns a string of nine characters, so
    applying it to its own result changes nothing: a ZIP code that already
    has its hyphen is left alone. *)
Theorem format_zip_idempotent :
  (forall z out, format_zip (Some z) = Some out -> Str.len out <> 9%nat)
  /\ (forall zip, format_zip (format_zip zip) = format_zip zip).
Proof.
  assert (Hlen : forall z out, format_zip (Some z) = Some out -> Str.len out <> 9%nat).
  { intros z out. unfold format_zip. case_bool_decide as Hz.
    - destruct z as [|c0 z]; [discriminate Hz|]. cbn [nonempty andb]. intros [= <-].
      unfold Str.len in *. do 8 (destruct z as [|? z]; [discriminate Hz|]).
      destruct z; [|discriminate Hz]. discriminate.
    - rewrite andb_false_r. now intros [= <-]. }
  split; [exact Hlen|]. intros [z|]; [|reflexivity].
  destruct (format_zip (Some z)) as [out|] eqn:Hout.
  - unfold format_zip at 1. rewrite (bool_decide_eq_false_2 _ (Hlen z out Hout)).
    now rewrite andb_false_r.
  - reflexivity.
Qed.

(** ** X12: what [format_date] accepts and returns *)

Lemma re_m_starts_with_digit s m s2 :
  (m, s2) ∈ Strptime.re_m s ->
  exists c r, s = String c r /\ Str.is_digit c = true.
Proof.
  unfold Strptime.re_m, Strptime.two, Strptime.one. rewrite !elem_of_app.
  destruct s as [|c [|c' r]]; cbn.
  - intros [H|[H|H]]; now apply not_elem_of_nil in H.
  - intros [H|[H|H]]; try (now apply not_elem_of_nil in H).
    destruct (Strptime.between "1" "9" c) eqn:Hc; [|now apply not_elem_of_nil in H].
    exists c, EmptyString. split; [reflexivity|].
    eapply (between_is_digit "1" "9"); [reflexivity..|exact Hc].
  - intros [H|[H|H]].
    + destruct (Strptime.just "1" c) eqn:Hc; [|now apply not_elem_of_nil in H].
      apply bool_decide_eq_true in Hc as ->. eauto.
    + destruct (Strptime.just "0" c) eqn:Hc; [|now apply not_elem_of_nil in H].
      apply bool_decide_eq_true in Hc as ->. eauto.
    + destruct (Strptime.between "1" "9" c) eqn:Hc; [|now apply not_elem_of_nil in H].
      exists c, (String c' r). split; [reflexivity|].
      eapply (between_is_digit "1" "9"); [reflexivity..|exact Hc].
Qed.

Lemma format_regex_match_five_digits s Y m d rest :
  Strptime.format_regex_match s = Some (Y, m, d, rest) ->
  Str.forallb Str.is_digit (Str.take 5 s) = true /\ (5 <= Str.len s)%nat.
Proof.
  unfold Strptime.format_regex_match. intros H%head_Some_elem_of.
  apply list_elem_of_bind in H as ([Y' s1] & H & HY).
  apply list_elem_of_bind in H as ([m' s2] & _ & Hm).
  apply re_m_starts_with_digit in Hm as (c & r & Hs1 & Hc). cbn in Hs1. subst s1.
  unfold Strptime.re_Y in HY.
  destruct s as [|a0 [|a1 [|a2 [|a3 s]]]]; try (now apply not_elem_of_nil in HY).
  destruct (Str.is_digit a0) eqn:H0, (Str.is_digit a1) eqn:H1,
    (Str.is_digit a2) eqn:H2, (Str.is_digit a3) eqn:H3;
    cbn [andb] in HY; try (now apply not_elem_of_nil in HY).
  apply list_elem_of_singleton in HY. injection HY as _ <-.
  cbn [Str.take Str.forallb Str.len String.length]. rewrite H0, H1, H2, H3, Hc.
  split; [reflexivity | lia].
Qed.

Lemma short_years y : 1 <= y <= 9999 -> (Str.len (pretty y) <= 4)%nat.
Proof.
  intros Hy.
  assert (Hall : forallb short_year years = true) by (vm_compute; reflexivity).
  rewrite forallb_forall in Hall.
  assert (Hin : In y years).
  { apply list_elem_of_In, list_elem_of_lookup. exists (Z.to_nat (y - 1)).
    unfold years. rewrite lookup_seqZ_lt by lia. f_equal. lia. }
  specialize (Hall y Hin). unfold short_year in Hall.
  now apply bool_decide_eq_true in Hall.
Qed.

Lemma dash_within_five t rest :
  (Str.len t <= 4)%nat ->
  Str.forallb Str.is_digit (Str.take 5 (t +:+ "-" +:+ rest)) = false.
Proof.
  unfold Str.len. intros Hlen.
  destruct t as [|a [|b [|c [|d [|e t]]]]]; cbn [String.length] in Hlen; try lia;
    rewrite ?append_cons; change ("" +:+ "-" +:+ rest) with (String "-" rest);
    cbn [Str.take Str.forallb];
    change (Str.is_digit "-") with false; rewrite ?andb_false_r; reflexivity.
Qed.

(** X12. [format_date] raises [ValueError] on every non-empty text that
    does not start with five digits.  What it returns for a non-empty text
    is the decimal year, a hyphen, the two-digit month, a hyphen and the
    two-digit day of a day of the calendar; and that result is never
    accepted a second time: formatting an already formatted date raises
    [ValueError]. *)
Theorem format_date_output :
  (forall s, s <> "" ->
     (Str.forallb Str.is_digit (Str.take 5 s) = false \/ (Str.len s < 5)%nat) ->
     format_date (Some s) = Raise ValueError)
  /\ (forall s out, s <> "" -> format_date (Some s) = Ok out ->
        (exists y m d,
            calendar_date y m d = true
            /\ out = pretty y +:+ "-" +:+ Strptime.two_digits m
                       +:+ "-" +:+ Strptime.two_digits d)
        /\ format_date (Some out) = Raise ValueError).
Proof.
  assert (Hfive : forall s, s <> "" ->
     (Str.forallb Str.is_digit (Str.take 5 s) = false \/ (Str.len s < 5)%nat) ->
     format_date (Some s) = Raise ValueError).
  { intros s Hne Hbad. destruct s as [|c s]; [now elim Hne|].
    unfold format_date. cbn [nonempty]. unfold Strptime.strptime.
    destruct (Strptime.format_regex_match _) as [[[[Y m] d] rest]|] eqn:Hfound;
      [|reflexivity].
    apply format_regex_match_five_digits in Hfound as [Hdigits Hlen].
    destruct Hbad as [Hbad|Hbad]; [congruence | lia]. }
  split; [exact Hfive|].
  intros s out Hne Hout. destruct s as [|c s]; [now elim Hne|].
  unfold format_date in Hout. cbn [nonempty] in Hout.
  apply bind_Ok in Hout as (tm & Htm & [= <-]).
  unfold Strptime.strptime in Htm.
  destruct (Strptime.format_regex_match _) as [[[[Y m] d] rest]|]; [|discriminate Htm].
  destruct (negb _); [discriminate Htm|].
  apply bind_Ok in Htm as (year & _ & Htm). cbv beta in Htm.
  apply bind_Ok in Htm as (month & _ & Htm). cbv beta in Htm.
  apply bind_Ok in Htm as (day & _ & Htm). cbv beta in Htm.
  apply bind_Ok in Htm as (ymd & Hdate & [= <-]).
  rewrite datetime_date_calendar in Hdate.
  destruct (calendar_date year month day) eqn:Hcal; [|discriminate Hdate].
  unfold Strptime.strftime. cbn [Strptime.tm_year Strptime.tm_mon Strptime.tm_mday].
  split; [eauto|].
  assert (Hy : 1 <= year <= 9999).
  { unfold calendar_date in Hcal. apply andb_prop in Hcal as [[Hy _]%andb_prop _].
    now apply bool_decide_eq_true in Hy. }
  apply Hfive.
  - destruct (pretty year); discriminate.
  - left. apply dash_within_five, short_years, Hy.
Qed.

(** ** X13: tidied header tokens as field names *)

Lemma letter_not_space c : is_letter c = true -> Str.is_space c = false.
Proof. by_cases_on_char c. Qed.

Lemma letter_tidied c :
  is_letter c = true ->
  is_paren (Str.lower_char c) = false
  /\ is_dash_or_space (Str.lower_char c) = false
  /\ is_id_start (Str.lower_char c) = true.
Proof. by_cases_on_char c; intros; repeat split. Qed.

Lemma header_char_tidied c : header_char c = true -> tidied_char_ok c = true.
Proof. by_cases_on_char c. Qed.

Lemma rstrip_forallb p s : Str.forallb p s = true -> Str.forallb p (Str.rstrip s) = true.
Proof.
  induction s as [|c s IH]; [reflexivity|]. cbn [Str.forallb].
  intros [Hc Hs]%andb_prop. rewrite rstrip_cons. specialize (IH Hs).
  destruct (Str.rstrip s) as [|d t].
  - destruct (Str.is_space c); [reflexivity|]. cbn [Str.forallb]. now rewrite Hc.
  - cbn [Str.forallb] in *. now rewrite Hc, IH.
Qed.

Lemma tidied_chars_continue t :
  Str.forallb header_char t = true ->
  Str.forallb is_id_continue (sub_dash_space (sub_parens (Str.lower t))) = true.
Proof.
  induction t as [|c t IH]; [reflexivity|]. cbn [Str.forallb].
  intros [Hc Ht]%andb_prop. apply header_char_tidied in Hc. unfold tidied_char_ok in Hc.
  unfold sub_dash_space, sub_parens, Str.lower in *. cbn [Str.map Str.filter].
  destruct (is_paren (Str.lower_char c)); cbn [negb orb] in *; [now apply IH|].
  cbn [Str.map Str.forallb]. now rewrite Hc, IH.
Qed.

(** X13. A header token that starts with a letter and consists of letters,
    digits, underscores, spaces, hyphens and parentheses is tidied to an
    identifier that does not start with an underscore: such tokens can
    only be refused as field names for being a keyword or for colliding
    with another token. *)
Theorem tidy_header_gives_identifier (c : ascii) (r : string) :
  is_letter c = true ->
  Str.forallb header_char r = true ->
  isidentifier (_tidy_header (String c r)) = true
  /\ Str.startswith "_" (_tidy_header (String c r)) = false
  /\ (iskeyword (_tidy_header (String c r)) = false ->
      valid_field_name (_tidy_header (String c r)) = true).
Proof.
  intros Hc Hr.
  assert (Hstrip : Str.strip (String c r) = String c (Str.rstrip r)).
  { unfold Str.strip. cbn [Str.lstrip]. rewrite (letter_not_space c Hc), rstrip_cons.
    rewrite (letter_not_space c Hc). now destruct (Str.rstrip r). }
  destruct (letter_tidied c Hc) as (Hp & Hd & Hid).
  assert (Htidy : _tidy_header (String c r)
                  = String (Str.lower_char c)
                      (sub_dash_space (sub_parens (Str.lower (Str.rstrip r))))).
  { unfold _tidy_header. rewrite Hstrip. unfold sub_dash_space, sub_parens, Str.lower.
    cbn [Str.map Str.filter]. rewrite Hp. cbn [negb Str.map]. now rewrite Hd. }
  assert (Hident : isidentifier (_tidy_header (String c r)) = true).
  { rewrite Htidy. cbn [isidentifier]. rewrite Hid.
    now rewrite (tidied_chars_continue _ (rstrip_forallb _ _ Hr)). }
  assert (Hus : Str.startswith "_" (_tidy_header (String c r)) = false).
  { rewrite Htidy. cbn [Str.startswith]. apply bool_decide_eq_false. intros Heq.
    revert Hc Heq. clear. by_cases_on_char c. }
  split; [exact Hident|]. split; [exact Hus|].
  intros Hkw. unfold valid_field_name. now rewrite Hident, Hkw, Hus.
Qed.

Lemma tidy_header_gives_identifier_witness :
  isidentifier (_tidy_header "MODE S CODE HEX") = true.
Proof.
  apply (tidy_header_gives_identifier "M" "ODE S CODE HEX"); vm_compute; reflexivity.
Defined.

(** ** X14: when the lookup can be built *)

Lemma build_mfr_mdls_Ok_iff g acc :
  (exists m, build_mfr_mdls g acc = Ok m)
  <-> thrown g = None /\ Forall (fun mm => entry_readable mm = true) (yielded g).
Proof.
  revert acc. induction g as [mm rest IH| |e]; intros acc; cbn [build_mfr_mdls thrown yielded].
  - rewrite !getattr_cases, Forall_cons. unfold entry_readable.
    destruct (hasattr mm "type_acft"); cbn [mbind result_bind andb];
      [|split; [intros [? [=]] | intros [_ [[=] _]]]].
    destruct (hasattr mm "type_eng"); cbn [mbind result_bind andb];
      [|split; [intros [? [=]] | intros [_ [[=] _]]]].
    destruct (is_drone _ _); cbn [negb orb].
    + destruct (hasattr mm "code"); cbn [mbind result_bind];
        [|split; [intros [? [=]] | intros [_ [[=] _]]]].
      rewrite IH. tauto.
    + rewrite IH. tauto.
  - split; [intros _; split; [reflexivity | constructor] | eauto].
  - split; [intros [? [=]] | intros [[=] _]].
Qed.

Lemma build_mfr_mdls_Raise g acc e :
  build_mfr_mdls g acc = Raise e -> e = AttributeError \/ thrown g = Some e.
Proof.
  revert acc. induction g as [mm rest IH| |e']; intros acc; cbn [build_mfr_mdls thrown];
    [|discriminate|intros [= ->]; now right].
  rewrite !getattr_cases.
  destruct (hasattr mm "type_acft"); cbn [mbind result_bind]; [|intros [= <-]; now left].
  destruct (hasattr mm "type_eng"); cbn [mbind result_bind]; [|intros [= <-]; now left].
  destruct (is_drone _ _); [|apply IH].
  destruct (hasattr mm "code"); cbn [mbind result_bind]; [apply IH | intros [= <-]; now left].
Qed.

(** X14. The lookup is built exactly when reading the model-reference
    table does not raise and every entry read has both type columns, and
    the code column if it is a drone; otherwise the comprehension raises,
    either the exception of the read or [AttributeError].  A table whose
    header lacks a type column therefore ends the run with
    [AttributeError] before anything is written, as soon as it has one
    entry, and is harmless when it has none. *)
Theorem lookup_is_built_iff_entries_readable (g : generator row) :
  ((exists mfr_mdls, build_mfr_mdls g ∅ = Ok mfr_mdls)
   <-> thrown g = None /\ Forall (fun mm => entry_readable mm = true) (yielded g))
  /\ (forall e, build_mfr_mdls g ∅ = Raise e -> e = AttributeError \/ thrown g = Some e)
  /\ (forall database rec,
        g = read_file database "ACFTREF.txt" ->
        rec ∈ yielded g ->
        "type_acft" ∉ _fields rec \/ "type_eng" ∉ _fields rec ->
        parse_drone_data database = Outcome [] (Some AttributeError))
  /\ (thrown g = None -> yielded g = [] -> build_mfr_mdls g ∅ = Ok ∅).
Proof.
  split; [apply build_mfr_mdls_Ok_iff|]. split; [apply build_mfr_mdls_Raise|]. split.
  - intros database rec -> Hrec Hmissing.
    assert (Hbad : entry_readable rec = false).
    { pose proof (yielded_getattr_absent database "ACFTREF.txt" rec "type_acft" Hrec) as Ha.
      pose proof (yielded_getattr_absent database "ACFTREF.txt" rec "type_eng" Hrec) as He.
      unfold entry_readable. rewrite !getattr_cases in Ha, He.
      destruct Hmissing as [Hm|Hm].
      - apply Ha in Hm. destruct (hasattr rec "type_acft"); [discriminate Hm | reflexivity].
      - apply He in Hm. destruct (hasattr rec "type_eng"); [discriminate Hm|].
        now rewrite andb_false_r. }
    assert (Hthrown : thrown (read_file database "ACFTREF.txt") = None).
    { destruct (thrown _) eqn:Ht; [|reflexivity].
      rewrite (read_file_thrown _ _ _ Ht) in Hrec. now apply not_elem_of_nil in Hrec. }
    unfold parse_drone_data.
    destruct (build_mfr_mdls (read_file database "ACFTREF.txt") ∅) as [m|e] eqn:Hbuild.
    + exfalso. assert (Hok : exists m, build_mfr_mdls (read_file database "ACFTREF.txt") ∅ = Ok m)
        by eauto.
      apply build_mfr_mdls_Ok_iff in Hok as [_ Hall].
      rewrite Forall_forall in Hall. specialize (Hall rec Hrec). congruence.
    + destruct (build_mfr_mdls_Raise _ _ _ Hbuild) as [->|He]; [reflexivity | congruence].
  - intros Hthrown Hnil. destruct g as [a rest| |e]; [discriminate Hnil | reflexivity | discriminate Hthrown].
Qed.

Lemma lookup_is_built_iff_entries_readable_witness :
  parse_drone_data no_engine_type_db = Outcome [] (Some AttributeError).
Proof.
  destruct (lookup_is_built_iff_entries_readable (read_file no_engine_type_db "ACFTREF.txt"))
    as (_ & _ & Hrun & _).
  apply (Hrun no_engine_type_db (record no_engine_type_db "ACFTREF.txt" 0)).
  - reflexivity.
  - vm_compute. apply list_elem_of_here.
  - right. apply (bool_decide_unpack _). vm_compute. exact I.
Defined.
